(** * The Select component: selection, keyboard and popup state

    A shallow embedding of [source/components/Select/Select.tsx]: the
    static helpers [getOptionFromChildren] and [getValueFromProps], and
    the event handlers that drive the component state ([selectValue],
    [selectValueForMultiplePanel], [activeKey], [popupVisible],
    [searchValue]).

    Conventions.
    - JavaScript values that occur as keys, labels and titles are the
      primitives and object references of [Js.value]; numbers are
      integral (no NaN, no fractions).
    - Handlers run inside one batch of React updates: [this.state] read in
      a handler is the state at its start, every [setState] merges its
      partial state over the pending one in program order, and [setState]
      callbacks run once the batch is committed.
    - The props are held fixed between events, so that
      [getDerivedStateFromProps] only refreshes [prevProps].
    - DOM effects (focus, scrolling, [preventDefault], [stopPropagation])
      are left out; the host callbacks are recorded as a trace. *)

From Stdlib Require Import List String ZArith Bool Lia Permutation.
Import ListNotations.

Set Implicit Arguments.

(** ** JavaScript values *)

Module Js.

Inductive value : Type :=
| undefined
| null
| boolean (b : bool)
| number (n : Z)
| str (s : string)
| ref (id : nat).

Definition value_eq_dec (a b : value) : {a = b} + {a <> b}.
Proof.
  decide equality;
    [ apply Bool.bool_dec | apply Z.eq_dec | apply string_dec
    | apply Nat.eq_dec ].
Defined.

(** [a === b] *)
Definition strict_eq (a b : value) : bool :=
  if value_eq_dec a b then true else false.

(** ToBoolean *)
Definition truthy (a : value) : bool :=
  match a with
  | undefined | null => false
  | boolean b => b
  | number n => negb (n =? 0)%Z
  | str s => negb (String.eqb s EmptyString)
  | ref _ => true
  end.

(** [a || b] *)
Definition or (a b : value) : value := if truthy a then a else b.

(** Outcome of an evaluation that may raise. *)
Inductive result (A : Type) : Type :=
| Ok (a : A)
| TypeError.
Arguments TypeError {A}.

End Js.

Notation "a === b" := (Js.strict_eq a b) (at level 70, no associativity).
Notation "a ||| b" := (Js.or a b) (at level 50, left associativity).

(** ** Array helpers with the semantics of [Array.prototype] *)

Section ArrayOps.
Variable A : Type.

(** [findIndex]: index of the first element satisfying [p], or [-1]. *)
Fixpoint findIndex (p : A -> bool) (l : list A) : Z :=
  match l with
  | [] => (-1)%Z
  | x :: l' =>
      if p x then 0%Z
      else let i := findIndex p l' in
           if (i <? 0)%Z then (-1)%Z else (i + 1)%Z
  end.

(** Relative index resolution shared by [slice]. *)
Definition clampIndex (len i : Z) : Z :=
  if (i <? 0)%Z then Z.max (len + i) 0 else Z.min i len.

(** [l.slice(start, end)] *)
Definition slice (start stop : Z) (l : list A) : list A :=
  let len := Z.of_nat (List.length l) in
  let k := clampIndex len start in
  let f := clampIndex len stop in
  firstn (Z.to_nat (f - k)) (skipn (Z.to_nat k) l).

(** [l.slice(start)] *)
Definition sliceFrom (start : Z) (l : list A) : list A :=
  slice start (Z.of_nat (List.length l)) l.

(** [l.every(p)] and [l.find(p)] are [forallb] and [find]. *)
Definition every (p : A -> bool) (l : list A) : bool := forallb p l.
End ArrayOps.

(** ** Data model *)

(** [type SelectValue = { key; label; title }] *)
Record SelectValue : Type := mkSelectValue {
  key : Js.value;
  label : Js.value;
  title : Js.value
}.

(** The object literal [{}]: every field reads [undefined]. *)
Definition emptyObject : SelectValue :=
  mkSelectValue Js.undefined Js.undefined Js.undefined.

(** Props of an [<Option>] element, with the element's own React key.
    [value = None] stands for ['value' in child.props] being false. *)
Record OptionProps : Type := mkOptionProps {
  value : option Js.value;
  elementKey : Js.value;
  children : Js.value;
  optionTitle : Js.value;
  disabled : bool
}.

(** The declarative children: options, option groups (with the [_isShow]
    mark added by filtering) and anything else. *)
#[warnings="-register-all"]
Inductive Child : Type :=
| OptionElement (p : OptionProps)
| OptGroupElement (isShow : option bool) (groupChildren : list Child)
| OtherChild.

(** An element of a value array, or a scalar value: a primitive, or an
    object known by its reference and its [key], [label] and [title]
    fields (absent fields read [undefined]). *)
Inductive Elem : Type :=
| Prim (v : Js.value)
| Obj (id : nat) (fields : SelectValue).

Inductive PropValue : Type :=
| Scalar (e : Elem)
| Array (es : list Elem).

Inductive Mode : Type := single | multiple.

(** [filterOption]: a boolean, a predicate on the search text and the
    option, or a value of another type. *)
Inductive FilterOption : Type :=
| FilterBoolean (b : bool)
| FilterFunction (f : string -> OptionProps -> bool)
| FilterOtherType.

(** The props the state machine reads.  [propValue] and [defaultValue]
    are [None] when the prop is not passed. *)
Record SelectProps : Type := mkSelectProps {
  propChildren : list Child;
  propValue : option PropValue;
  defaultValue : option PropValue;
  visible : bool;
  mode : Mode;
  labelInValue : bool;
  filterOption : FilterOption;
  defaultActiveFirstOption : bool;
  esc : bool;
  filterInactiveOption : bool
}.

Record SelectState : Type := mkSelectState {
  searchValue : string;
  selectValue : list SelectValue;
  selectValueForMultiplePanel : list SelectValue;
  popupVisible : bool;
  activeKey : Js.value
}.

(** A partial state, as passed to [setState]. *)
Record PartialState : Type := mkPartialState {
  searchValue' : option string;
  selectValue' : option (list SelectValue);
  selectValueForMultiplePanel' : option (list SelectValue);
  popupVisible' : option bool;
  activeKey' : option Js.value
}.

Definition noChange : PartialState :=
  mkPartialState None None None None None.

Definition orElse (A : Type) (o : option A) (d : A) : A :=
  match o with Some a => a | None => d end.

(** Shallow merge of a partial state over a state. *)
Definition merge (st : SelectState) (p : PartialState) : SelectState :=
  {| searchValue := orElse (searchValue' p) (searchValue st);
     selectValue := orElse (selectValue' p) (selectValue st);
     selectValueForMultiplePanel :=
       orElse (selectValueForMultiplePanel' p) (selectValueForMultiplePanel st);
     popupVisible := orElse (popupVisible' p) (popupVisible st);
     activeKey := orElse (activeKey' p) (activeKey st) |}.

(** Argument handed to [onChange]. *)
Inductive ChangeArg : Type :=
| NoArg
| ValueArg (v : Js.value)
| ObjectArg (o : SelectValue)
| KeysArg (ks : list Js.value)
| ObjectsArg (os : list SelectValue).

(** Host notifications, in the order they are fired. *)
Inductive Notification : Type :=
| onChange (arg : ChangeArg)
| onSelect (o : SelectValue)
| onDeselect (o : SelectValue)
| onSearch (text : string)
| onVisibleChange (visible : bool).

(** ** Option resolution *)

Definition optionKey (p : OptionProps) : Js.value :=
  match value p with
  | Some v => v
  | None => elementKey p
  end.

Definition selectOption (p : OptionProps) : SelectValue :=
  {| label := children p; key := optionKey p; title := optionTitle p |}.

(** One child of [React.Children.forEach] in [getOptionFromChildren]. *)
Fixpoint getOptionFromChild (filter : option (OptionProps -> bool))
    (child : Child) : list SelectValue :=
  match child with
  | OptionElement p =>
      match filter with
      | Some f => if f p then [selectOption p] else []
      | None => [selectOption p]
      end
  | OptGroupElement _ cs => flat_map (getOptionFromChild filter) cs
  | OtherChild => []
  end.

Definition getOptionFromChildren (cs : list Child)
    (plainOptionList : list SelectValue)
    (filter : option (OptionProps -> bool)) : list SelectValue :=
  plainOptionList ++ flat_map (getOptionFromChild filter) cs.

(** [child => !child.props.disabled] *)
Definition notDisabled (p : OptionProps) : bool := negb (disabled p).

Definition keyIs (k : Js.value) (o : SelectValue) : bool := key o === k.

(** [optionList.find(option => option.key === k) || {}] *)
Definition findOption (optionList : list SelectValue) (k : Js.value)
  : SelectValue :=
  orElse (find (keyIs k) optionList) emptyObject.

(** ** Value normalization *)

Inductive ValueType : Type :=
| TUndefined | TNull | TBoolean | TNumber | TString | TObject | TArray.

(** [Object.prototype.toString.call(value).slice(8, -1).toLowerCase()] *)
Definition valueType (v : PropValue) : ValueType :=
  match v with
  | Array _ => TArray
  | Scalar (Obj _ _) => TObject
  | Scalar (Prim Js.undefined) => TUndefined
  | Scalar (Prim Js.null) => TNull
  | Scalar (Prim (Js.boolean _)) => TBoolean
  | Scalar (Prim (Js.number _)) => TNumber
  | Scalar (Prim (Js.str _)) => TString
  | Scalar (Prim (Js.ref _)) => TObject
  end.

(** The element as a value: an object is its reference. *)
Definition elemValue (e : Elem) : Js.value :=
  match e with
  | Prim v => v
  | Obj id _ => Js.ref id
  end.

(** Reading [e.key], [e.label], [e.title]: raises on [undefined] and
    [null], reads [undefined] on the other primitives. *)
Definition elemFields (e : Elem) : Js.result SelectValue :=
  match e with
  | Obj _ o => Js.Ok o
  | Prim Js.undefined | Prim Js.null => Js.TypeError
  | Prim _ => Js.Ok emptyObject
  end.

(** Body of the [map] callback under [labelInValue]. *)
Definition fromLabelled (optionList : list SelectValue) (obj : SelectValue)
  : SelectValue :=
  let opt := findOption optionList (key obj) in
  {| key := key obj;
     label := label obj ||| label opt ||| key obj;
     title := title obj ||| title opt |}.

(** Body of the [map] callback without [labelInValue]. *)
Definition fromKey (optionList : list SelectValue) (k : Js.value)
  : SelectValue :=
  let opt := findOption optionList k in
  {| key := k; label := label opt ||| k; title := title opt |}.

(** [es.map(f)] for a callback that may raise. *)
Fixpoint mapResult (A B : Type) (f : A -> Js.result B) (l : list A)
  : Js.result (list B) :=
  match l with
  | [] => Js.Ok []
  | x :: l' =>
      match f x with
      | Js.TypeError => Js.TypeError
      | Js.Ok y =>
          match mapResult f l' with
          | Js.TypeError => Js.TypeError
          | Js.Ok ys => Js.Ok (y :: ys)
          end
      end
  end.

Definition labelledElem (optionList : list SelectValue) (e : Elem)
  : Js.result SelectValue :=
  match elemFields e with
  | Js.Ok obj => Js.Ok (fromLabelled optionList obj)
  | Js.TypeError => Js.TypeError
  end.

Definition getValueFromProps (v : PropValue) (labelInValue : bool)
    (cs : list Child) : Js.result (list SelectValue) :=
  let optionList := getOptionFromChildren cs [] None in
  if labelInValue then
    match v with
    | Array es => mapResult (labelledElem optionList) es
    | Scalar e =>
        match valueType v with
        | TObject =>
            match labelledElem optionList e with
            | Js.Ok o => Js.Ok [o]
            | Js.TypeError => Js.TypeError
            end
        | _ => Js.Ok []
        end
    end
  else
    (* a string or a number becomes [[value]] *)
    let v :=
      match valueType v, v with
      | TString, Scalar e | TNumber, Scalar e => Array [e]
      | _, _ => v
      end in
    match v with
    | Array es => Js.Ok (map (fun e => fromKey optionList (elemValue e)) es)
    | Scalar e =>
        (* [(value && value.map(...)) || []] on a value that is no array *)
        if Js.truthy (elemValue e) then Js.TypeError else Js.Ok []
    end.

(** ** Search filtering *)

Definition filterFlag (fo : FilterOption) (search : string) (p : OptionProps)
  : bool :=
  match fo with
  | FilterFunction f => f search p
  | FilterBoolean b => b
  | FilterOtherType => false
  end.

Definition isEmpty (A : Type) (l : list A) : bool :=
  match l with [] => true | _ => false end.

(** One child of [React.Children.forEach] in [getFilteredChildren]: a
    group is kept, cloned with its filtered children and the [_isShow]
    mark. *)
Fixpoint getFilteredChild (fo : FilterOption) (search : string)
    (child : Child) : list Child :=
  match child with
  | OptionElement p => if filterFlag fo search p then [child] else []
  | OptGroupElement _ cs =>
      let filtered := flat_map (getFilteredChild fo search) cs in
      [OptGroupElement (Some (negb (isEmpty filtered))) filtered]
  | OtherChild => []
  end.

Definition getFilteredChildren (fo : FilterOption) (search : string)
    (cs : list Child) (ChildrenList : list Child) : list Child :=
  ChildrenList ++ flat_map (getFilteredChild fo search) cs.

(** ** Handlers as batches of state updates and notifications *)

Record Batch : Type := mkBatch {
  pending : SelectState;
  fired : list Notification;
  afterCommit : list (SelectState -> list Notification)
}.

Definition Handler : Type := Batch -> Batch.

Definition skip : Handler := fun b => b.

Definition andThen (h1 h2 : Handler) : Handler := fun b => h2 (h1 b).

Notation "h1 ;; h2" := (andThen h1 h2) (at level 61, right associativity).

(** [this.setState(p)] *)
Definition setState (p : PartialState) : Handler :=
  fun b => mkBatch (merge (pending b) p) (fired b) (afterCommit b).

(** [this.setState(p, callback)] *)
Definition setStateThen (p : PartialState)
    (callback : SelectState -> list Notification) : Handler :=
  fun b => mkBatch (merge (pending b) p) (fired b) (afterCommit b ++ [callback]).

(** A call of a host callback. *)
Definition call (n : Notification) : Handler :=
  fun b => mkBatch (pending b) (fired b ++ [n]) (afterCommit b).

(** Commit of the batch started in state [st]. *)
Definition runHandler (h : Handler) (st : SelectState)
  : SelectState * list Notification :=
  let b := h (mkBatch st [] []) in
  (pending b, fired b ++ flat_map (fun cb => cb (pending b)) (afterCommit b)).

(** The key codes the handler tells apart ([KeyCode] of the utilities),
    and any other key. *)
Inductive KeyCode : Type := ESC | ENTER | UP | DOWN | OtherKey.

(** [keyCode === KeyCode.X] *)
Definition keyCodeIs (x k : KeyCode) : bool :=
  match x, k with
  | ESC, ESC | ENTER, ENTER | UP, UP | DOWN, DOWN | OtherKey, OtherKey => true
  | _, _ => false
  end.

(** [optionList[i]] as an object; every use below is in range. *)
Definition item (l : list SelectValue) (i : Z) : SelectValue :=
  nth (Z.to_nat i) l emptyObject.

Definition isSome (A : Type) (o : option A) : bool :=
  match o with Some _ => true | None => false end.

Section Handlers.
Variable props : SelectProps.

Definition liveOptions : list SelectValue :=
  getOptionFromChildren (propChildren props) [] (Some notDisabled).

(** [changeVisibleState] *)
Definition changeVisibleState (visible : bool) (st : SelectState) : Handler :=
  call (onVisibleChange visible) ;;
  let changedState :=
    if visible then
      let options := liveOptions in
      let active1 :=
        if defaultActiveFirstOption props
        then Some (key (hd emptyObject options))
        else None in
      let active2 :=
        match mode props, selectValue st with
        | single, selected :: _ => Some (key selected)
        | _, _ => active1
        end in
      mkPartialState None None None (Some visible) active2
    else
      mkPartialState None None None (Some visible) (Some Js.undefined) in
  setState changedState.

(** [visibleChangeFromTrigger] *)
Definition visibleChangeFromTrigger (visible : bool) (st : SelectState)
  : Handler :=
  (match visible, mode props with
   | false, multiple =>
       setState (mkPartialState None (Some (selectValueForMultiplePanel st))
                   None None None)
   | _, _ => skip
   end) ;;
  changeVisibleState visible st.

(** [updateSearchValue] *)
Definition updateSearchValue (text : string) (st : SelectState) : Handler :=
  call (onSearch text) ;;
  setState (mkPartialState (Some text) None None None None).

(** [emptySearchValue] *)
Definition emptySearchValue (st : SelectState) : Handler :=
  call (onSearch EmptyString) ;;
  setState (mkPartialState (Some EmptyString) None None None None).

(** [isSelectAll] *)
Definition isSelectAll (isMultiplePanel : bool) (st : SelectState) : bool :=
  let optionList := liveOptions in
  if isMultiplePanel then
    negb (isEmpty optionList) &&
    every (fun selected =>
             isSome (find (keyIs (key selected))
                       (selectValueForMultiplePanel st))) optionList
  else
    every (fun selected =>
             isSome (find (keyIs (key selected)) (selectValue st)))
      optionList.

(** [selectAllOption] *)
Definition selectAllOption (st : SelectState) : Handler :=
  setState (mkPartialState None
              (Some (if isSelectAll false st then [] else liveOptions))
              None None None).

(** [emptySelectValue] *)
Definition emptySelectValue (st : SelectState) : Handler :=
  changeVisibleState false st ;;
  call (onChange NoArg) ;;
  setState (mkPartialState None (Some []) None None None).

(** [onOptionClick] *)
Definition onOptionClick (obj : SelectValue) (clickLabelClose : bool)
    (st : SelectState) : Handler :=
  let index := findIndex (keyIs (key obj)) (selectValue st) in
  let isSelected := (0 <=? index)%Z in
  match mode props with
  | single =>
      changeVisibleState false st ;;
      setState (mkPartialState None (Some [obj]) None None None) ;;
      if isSelected then skip
      else if labelInValue props then call (onChange (ObjectArg obj))
      else call (onChange (ValueArg (key obj)))
  | multiple =>
      if clickLabelClose then
        let panel := selectValueForMultiplePanel st in
        let indexInMultiple := findIndex (keyIs (key obj)) panel in
        let firstValue := slice 0 indexInMultiple panel in
        let restValues := sliceFrom (indexInMultiple + 1) panel in
        let changedValue := firstValue ++ restValues in
        call (onDeselect obj) ;;
        (if labelInValue props
         then call (onChange (ObjectsArg changedValue))
         else call (onChange (KeysArg (map key changedValue)))) ;;
        setState (mkPartialState None (Some changedValue)
                    (Some changedValue) None None)
      else
        let changedValue :=
          if isSelected
          then slice 0 index (selectValue st)
               ++ sliceFrom (index + 1) (selectValue st)
          else selectValue st ++ [obj] in
        (if isSelected then call (onDeselect obj) else call (onSelect obj)) ;;
        setState (mkPartialState None (Some changedValue) None None None)
  end.

(** [handleCancelSelect] *)
Definition handleCancelSelect (st : SelectState) : Handler :=
  changeVisibleState false st ;;
  setState (mkPartialState None (Some (selectValueForMultiplePanel st))
              None None None).

(** The selections kept by [filterInactiveOption]. *)
Definition activeSelections (l : list SelectValue) : list SelectValue :=
  filter (fun item => isSome (find (keyIs (key item)) liveOptions)) l.

(** [handleConfirmSelect] *)
Definition handleConfirmSelect (st : SelectState) : Handler :=
  changeVisibleState false st ;;
  setState (mkPartialState None None (Some (selectValue st)) None None) ;;
  let outputSelectedValue :=
    if filterInactiveOption props
    then activeSelections (selectValue st)
    else selectValue st in
  if labelInValue props
  then call (onChange (ObjectsArg outputSelectedValue))
  else call (onChange (KeysArg (map key outputSelectedValue))).

(** The option list the keyboard walks: filtered by the search, then
    without the disabled options. *)
Definition keyboardOptions (st : SelectState) : list SelectValue :=
  let filteredList :=
    getFilteredChildren (filterOption props) (searchValue st)
      (propChildren props) [] in
  getOptionFromChildren filteredList [] (Some notDisabled).

(** Callback of the single-mode Enter: reads the committed state. *)
Definition enterCallback (committed : SelectState) : list Notification :=
  if labelInValue props then
    match selectValue committed with
    | o :: _ => [onChange (ObjectArg o)]
    | [] => [onChange (ValueArg Js.undefined)]
    end
  else
    match map key (selectValue committed) with
    | k :: _ => [onChange (ValueArg k)]
    | [] => [onChange (ValueArg Js.undefined)]
    end.

(** [handleKeyboardEvent] *)
Definition handleKeyboardEvent (keyCode : KeyCode) (st : SelectState)
  : Handler :=
  if keyCodeIs ESC keyCode && esc props then changeVisibleState false st
  else if keyCodeIs ENTER keyCode || keyCodeIs UP keyCode
          || keyCodeIs DOWN keyCode
  then
    let optionList := keyboardOptions st in
    let optionListLen := Z.of_nat (List.length optionList) in
    if (optionListLen =? 0)%Z then skip
    else
      (if keyCodeIs ENTER keyCode then
         let activeTabIndex :=
           findIndex (keyIs (activeKey st)) optionList in
         if negb (activeTabIndex =? -1)%Z then
           if negb (isSome (find (keyIs (activeKey st)) (selectValue st)))
           then
             match mode props with
             | single =>
                 changeVisibleState false st ;;
                 setStateThen
                   (mkPartialState None
                      (Some [item optionList activeTabIndex])
                      None None (Some Js.undefined))
                   enterCallback
             | multiple =>
                 setState
                   (mkPartialState None
                      (Some (selectValue st
                             ++ [item optionList activeTabIndex]))
                      None None None)
             end
           else skip
         else skip
       else skip) ;;
      (if keyCodeIs UP keyCode || keyCodeIs DOWN keyCode then
         if negb (activeKey st === Js.undefined) then
           let activeTabIndex :=
             findIndex (keyIs (activeKey st)) optionList in
           if (activeTabIndex =? -1)%Z then
             setState (mkPartialState None None None None
                         (Some (key (item optionList 0))))
           else
             let nextIndex :=
               (if keyCodeIs UP keyCode then
                  if activeTabIndex =? 0 then optionListLen - 1
                  else activeTabIndex - 1
                else if keyCodeIs DOWN keyCode then
                  if activeTabIndex + 1 =? optionListLen then 0
                  else activeTabIndex + 1
                else 0)%Z in
             setState (mkPartialState None None None None
                         (Some (key (item optionList nextIndex))))
         else
           setState (mkPartialState None None None None
                       (Some (key (item optionList 0))))
       else skip)
  else skip.

End Handlers.

(** ** The component as a transition system *)

(** What the host and the user can do to a mounted component. *)
Inductive Event : Type :=
| OptionClick (obj : SelectValue)
| LabelCloseClick (obj : SelectValue)
| ConfirmClick
| CancelClick
| TriggerVisibleChange (visible : bool)
| SelectAllClick
| ClearClick
| SearchInput (text : string)
| SearchClear
| KeyDown (keyCode : KeyCode).

Definition handle (props : SelectProps) (e : Event) (st : SelectState)
  : Handler :=
  match e with
  | OptionClick obj => onOptionClick props obj false st
  | LabelCloseClick obj => onOptionClick props obj true st
  | ConfirmClick => handleConfirmSelect props st
  | CancelClick => handleCancelSelect props st
  | TriggerVisibleChange visible => visibleChangeFromTrigger props visible st
  | SelectAllClick => selectAllOption props st
  | ClearClick => emptySelectValue props st
  | SearchInput text => updateSearchValue text st
  | SearchClear => emptySearchValue st
  | KeyDown keyCode => handleKeyboardEvent props keyCode st
  end.

Definition step (props : SelectProps) (st : SelectState) (e : Event)
  : SelectState :=
  fst (runHandler (handle props e st) st).

Definition notifications (props : SelectProps) (st : SelectState) (e : Event)
  : list Notification :=
  snd (runHandler (handle props e st) st).

Definition run (props : SelectProps) (st : SelectState) (es : list Event)
  : SelectState :=
  fold_left (step props) es st.

(** The state set up by the constructor, which raises when value
    normalization does. *)
Definition construct (props : SelectProps) : Js.result SelectState :=
  let initialValue :=
    match propValue props, defaultValue props with
    | Some v, _ => v
    | None, Some v => v
    | None, None => Array []
    end in
  match getValueFromProps initialValue (labelInValue props)
          (propChildren props) with
  | Js.Ok initialSelectValue =>
      Js.Ok {| searchValue := EmptyString;
               selectValue := initialSelectValue;
               selectValueForMultiplePanel := initialSelectValue;
               popupVisible := visible props;
               activeKey := Js.undefined |}
  | Js.TypeError => Js.TypeError
  end.

(** States a mounted component can be in. *)
Definition reachable (props : SelectProps) (st : SelectState) : Prop :=
  exists st0 es, construct props = Js.Ok st0 /\ run props st0 es = st.

(** [activeKey] is absent, or the key of an option the keyboard walks. *)
Definition activeKeyValid (props : SelectProps) (st : SelectState) : Prop :=
  activeKey st = Js.undefined \/
  exists o, In o (keyboardOptions props st) /\ key o = activeKey st.

(** ** Vocabulary of the statements *)

(** The props of the options of a child, in source order. *)
Fixpoint optionProps (child : Child) : list OptionProps :=
  match child with
  | OptionElement p => [p]
  | OptGroupElement _ cs => flat_map optionProps cs
  | OtherChild => []
  end.

(** The options of a catalog that are not disabled, in source order,
    groups flattened. *)
Definition enabledOptions (cs : list Child) : list SelectValue :=
  map selectOption (filter notDisabled (flat_map optionProps cs)).

(** The same among the options that pass the search filter. *)
Definition enabledMatches (fo : FilterOption) (search : string)
    (cs : list Child) : list SelectValue :=
  map selectOption
    (filter notDisabled
       (filter (filterFlag fo search) (flat_map optionProps cs))).

(** The selection after a multiple-mode option click. *)
Definition toggled (X : SelectValue) (l : list SelectValue)
  : list SelectValue :=
  let index := findIndex (keyIs (key X)) l in
  if (0 <=? index)%Z then slice 0 index l ++ sliceFrom (index + 1) l
  else l ++ [X].

(** A selection resolves when a live (non-disabled) option carries its
    key. *)
Definition resolvesLive (props : SelectProps) (o : SelectValue) : Prop :=
  exists opt, In opt (enabledOptions (propChildren props)) /\ key opt = key o.

(** State after a key that only moves the highlight. *)
Definition withActiveKey (st : SelectState) (k : Js.value) : SelectState :=
  {| searchValue := searchValue st;
     selectValue := selectValue st;
     selectValueForMultiplePanel := selectValueForMultiplePanel st;
     popupVisible := popupVisible st;
     activeKey := k |}.

(** The index an arrow key moves to, as the handler computes it. *)
Definition arrowTarget (keyCode : KeyCode) (st : SelectState)
    (optionList : list SelectValue) : Z :=
  let len := Z.of_nat (List.length optionList) in
  let i := findIndex (keyIs (activeKey st)) optionList in
  if activeKey st === Js.undefined then 0
  else if (i =? -1)%Z then 0
  else match keyCode with
       | UP => if (i =? 0)%Z then len - 1 else i - 1
       | _ => if (i + 1 =? len)%Z then 0 else i + 1
       end%Z.

(** Events after which the handlers leave the highlight in place, clear
    it, or move it inside the keyboard's list: all but a search edit and
    the opening of the popup. *)
Definition keepsHighlight (e : Event) : bool :=
  match e with
  | SearchInput _ | SearchClear | TriggerVisibleChange true => false
  | _ => true
  end.

(** The keys of a value of the shape read without [labelInValue]: a
    string or number, an array, or an absent value. *)
Definition keysOf (v : PropValue) : option (list Js.value) :=
  match v with
  | Array es => Some (map elemValue es)
  | Scalar (Prim (Js.str s)) => Some [Js.str s]
  | Scalar (Prim (Js.number n)) => Some [Js.number n]
  | Scalar (Prim Js.undefined) | Scalar (Prim Js.null) => Some []
  | Scalar _ => None
  end.

Definition objectOf (e : Elem) : option SelectValue :=
  match e with
  | Obj _ o => Some o
  | Prim _ => None
  end.

Fixpoint allSome (A : Type) (l : list (option A)) : option (list A) :=
  match l with
  | [] => Some []
  | Some a :: l' =>
      match allSome l' with Some r => Some (a :: r) | None => None end
  | None :: _ => None
  end.

(** The objects of a value of the shape read under [labelInValue]: an
    object or an array of objects. *)
Definition objectsOf (v : PropValue) : option (list SelectValue) :=
  match v with
  | Scalar (Obj _ o) => Some [o]
  | Scalar (Prim _) => None
  | Array es => allSome (map objectOf es)
  end.

(** An entry normalized from key [k]: it keeps the key, takes label and
    title from the first option carrying the key, and falls back to the
    key as label when no option or no truthy option label is there. *)
Definition entryOfKey (optionList : list SelectValue) (k : Js.value)
    (o : SelectValue) : Prop :=
  key o = k /\
  (forall opt, find (keyIs k) optionList = Some opt ->
               label o = label opt ||| k /\ title o = title opt) /\
  (~ In k (map key optionList) -> label o = k /\ title o = Js.undefined).

(** An entry normalized from object [obj]: its own label and title win
    when truthy, then the option's, then the key as label. *)
Definition entryOfObject (optionList : list SelectValue) (obj o : SelectValue)
  : Prop :=
  key o = key obj /\
  (Js.truthy (label obj) = true -> label o = label obj) /\
  (forall opt, find (keyIs (key obj)) optionList = Some opt ->
               label o = label obj ||| label opt ||| key obj /\
               title o = title obj ||| title opt) /\
  (~ In (key obj) (map key optionList) ->
   Js.truthy (label obj) = false -> label o = key obj).

(** ** A small catalog used to exercise the statements *)

Module Sample.
Open Scope string_scope.

Definition optionA : OptionProps :=
  mkOptionProps (Some (Js.str "a")) Js.null (Js.str "Apple") Js.undefined false.
Definition optionB : OptionProps :=
  mkOptionProps (Some (Js.str "b")) Js.null (Js.str "Banana") Js.undefined false.
Definition optionC : OptionProps :=
  mkOptionProps (Some (Js.str "c")) Js.null (Js.str "Cherry") Js.undefined true.

Definition A : SelectValue := selectOption optionA.
Definition B : SelectValue := selectOption optionB.
Definition C : SelectValue := selectOption optionC.

(** [A], then a group with [B] and the disabled [C]. *)
Definition catalog : list Child :=
  [ OptionElement optionA;
    OptGroupElement None [OptionElement optionB; OptionElement optionC] ].

(** A host filter: the label contains the search text. *)
Definition labelContains (search : string) (p : OptionProps) : bool :=
  match children p with
  | Js.str s => isSome (String.index 0 search s)
  | _ => false
  end.

Definition props (m : Mode) (withLabel : bool) (fo : FilterOption)
    (dropInactive : bool) : SelectProps :=
  {| propChildren := catalog;
     propValue := None;
     defaultValue := None;
     visible := false;
     mode := m;
     labelInValue := withLabel;
     filterOption := fo;
     defaultActiveFirstOption := false;
     esc := true;
     filterInactiveOption := dropInactive |}.

Definition state (selected committed : list SelectValue) (open : bool)
    (active : Js.value) : SelectState :=
  {| searchValue := "";
     selectValue := selected;
     selectValueForMultiplePanel := committed;
     popupVisible := open;
     activeKey := active |}.
End Sample.

(** ** Props updates, confirm validation and offered events *)

Definition selectValue_eq_dec (a b : SelectValue) : {a = b} + {a <> b}.
Proof. decide equality; apply Js.value_eq_dec. Defined.

(** [isEqual] of lodash on two normalized selections: equal lengths and
    equal fields, entry by entry.  Two object references are equal when
    they are the same reference (a reference stands for one object, and
    distinct references for objects of distinct content). *)
Definition isEqual (a b : list SelectValue) : bool :=
  if list_eq_dec selectValue_eq_dec a b then true else false.

(** [getDerivedStateFromProps], without the [prevProps] field it always
    refreshes: the partial state derived from the next props and the
    props of the previous pass, raising when a normalization does. *)
Definition getDerivedStateFromProps (nextProps prevProps : SelectProps)
  : Js.result PartialState :=
  let popup :=
    if Bool.eqb (visible nextProps) (visible prevProps) then None
    else Some (visible nextProps) in
  match propValue nextProps with
  | None => Js.Ok (mkPartialState None None None popup None)
  | Some v =>
      match getValueFromProps v (labelInValue nextProps)
              (propChildren nextProps) with
      | Js.TypeError => Js.TypeError
      | Js.Ok changedValue =>
          match getValueFromProps
                  (orElse (propValue prevProps) (Scalar (Prim Js.undefined)))
                  (labelInValue prevProps) (propChildren prevProps) with
          | Js.TypeError => Js.TypeError
          | Js.Ok prevValue =>
              if negb (isEqual changedValue prevValue) then
                Js.Ok (mkPartialState None (Some changedValue)
                         (match mode nextProps with
                          | multiple => Some changedValue
                          | single => None
                          end)
                         popup None)
              else Js.Ok (mkPartialState None None None popup None)
          end
      end
  end.

(** The state after a render pass with new props. *)
Definition receiveProps (nextProps prevProps : SelectProps) (st : SelectState)
  : Js.result SelectState :=
  match getDerivedStateFromProps nextProps prevProps with
  | Js.Ok p => Js.Ok (merge st p)
  | Js.TypeError => Js.TypeError
  end.

(** ['maxCount' in this.props && selectValue.length > maxCount], with
    [maxCount = None] when the prop is not passed. *)
Definition maxCountError (maxCount : option Z) (st : SelectState) : bool :=
  match maxCount with
  | Some m => (m <? Z.of_nat (List.length (selectValue st)))%Z
  | None => false
  end.

(** [mode === 'multiple' && required && !selectValue.length] *)
Definition requiredError (props : SelectProps) (required : bool)
    (st : SelectState) : bool :=
  match mode props with
  | multiple => required && isEmpty (selectValue st)
  | single => false
  end.

(** [multipleConfirmDisabled]: the confirm button is disabled. *)
Definition multipleConfirmDisabled (props : SelectProps)
    (maxCount : option Z) (required : bool) (st : SelectState) : bool :=
  maxCountError maxCount st || requiredError props required st.

(** The events the rendered panels can deliver: the confirm and cancel
    buttons, the select-all row and the closable tags (one per pending
    entry) exist in multiple mode only, the clear row in single mode
    only. *)
Definition offered (props : SelectProps) (st : SelectState) (e : Event)
  : Prop :=
  match e with
  | LabelCloseClick obj =>
      mode props = multiple /\ In obj (selectValueForMultiplePanel st)
  | ConfirmClick | CancelClick | SelectAllClick => mode props = multiple
  | ClearClick => mode props = single
  | _ => True
  end.

(** No two entries of the selection or of the pending selection carry
    the same key. *)
Definition distinctKeys (st : SelectState) : Prop :=
  NoDup (map key (selectValue st)) /\
  NoDup (map key (selectValueForMultiplePanel st)).

Definition isOptionClick (e : Event) : Prop :=
  match e with OptionClick _ => True | _ => False end.

(** The option groups of a list of children, nested ones included. *)
Fixpoint groupCount (child : Child) : nat :=
  match child with
  | OptGroupElement _ cs => S (list_sum (map groupCount cs))
  | _ => 0
  end.

(** Every group of the child carries an [_isShow] mark, and the mark
    tells whether the group has children. *)
Fixpoint marksSet (child : Child) : bool :=
  match child with
  | OptGroupElement s cs =>
      match s with
      | Some b => Bool.eqb b (negb (isEmpty cs))
      | None => false
      end && forallb marksSet cs
  | _ => true
  end.

(** Events that close the popup whatever the state. *)
Definition closes (props : SelectProps) (e : Event) : Prop :=
  match e with
  | CancelClick | ConfirmClick | ClearClick | TriggerVisibleChange false => True
  | KeyDown ESC => esc props = true
  | OptionClick _ | LabelCloseClick _ => mode props = single
  | _ => False
  end.

(** Events that hand the selection to the host in multiple mode. *)
Definition reportsInMultiple (e : Event) : bool :=
  match e with
  | ConfirmClick | LabelCloseClick _ | ClearClick => true
  | _ => false
  end.

(** The sample props with a controlled [value]. *)
Definition controlledProps (m : Mode) (v : PropValue) : SelectProps :=
  {| propChildren := Sample.catalog;
     propValue := Some v;
     defaultValue := None;
     visible := false;
     mode := m;
     labelInValue := false;
     filterOption := FilterBoolean true;
     defaultActiveFirstOption := false;
     esc := true;
     filterInactiveOption := false |}.

(** ** The column filter of the table

    [source/components/Table/ColumnFiltrateModal.tsx]: the modal that
    picks the visible columns of a table.  The column and props types
    come from the table's interface file; of a column the code reads
    [title], [key], [dataIndex], [colSpan], [fixed] and [children]. *)

(** [l.indexOf(v)] *)
Definition indexOf (l : list Js.value) (v : Js.value) : Z :=
  findIndex (fun x => x === v) l.

Module ColumnFiltrate.

(** [colSpan = None] stands for ['colSpan' in column] being false. *)
Record Column : Type := mkColumn {
  title : Js.value;
  key : Js.value;
  dataIndex : Js.value;
  colSpan : option Z;
  fixed : Js.value;
  children : Js.value
}.

Record Props : Type := mkProps {
  columns : list Column;
  defaultColumns : list Js.value;
  hideColumns : list Js.value
}.

Record State : Type := mkState {
  visible : bool;
  checkedOption : list Js.value;
  checkedOptionConfirm : list Js.value
}.

(** An entry of the checkbox group. *)
Record CheckboxOption : Type := mkCheckboxOption {
  label : Js.value;
  value : Js.value;
  disabled : bool
}.

(** [getColumnKey] *)
Definition getColumnKey (column : Column) : Js.value :=
  match colSpan column with
  | Some _ => title column
  | None => key column ||| dataIndex column ||| title column
  end.

(** An array whose items are values or arrays again. *)
#[warnings="-register-all"]
Inductive Nested : Type :=
| Leaf (v : Js.value)
| Nest (items : list Nested).

(** [prev.concat(Array.isArray(next) ? flatten(next) : next)] *)
Fixpoint flattenItem (next : Nested) : list Js.value :=
  match next with
  | Leaf v => [v]
  | Nest items => flat_map flattenItem items
  end.

(** [flatten] *)
Definition flatten (arr : list Nested) : list Js.value :=
  flat_map flattenItem arr.

(** [column.colSpan !== 0] *)
Definition spanned (column : Column) : bool :=
  match colSpan column with
  | Some n => negb (n =? 0)%Z
  | None => true
  end.

(** [column.key || column.dataIndex] *)
Definition keyOrDataIndex (column : Column) : Js.value :=
  key column ||| dataIndex column.

(** The [forEach] of the constructor from position [index] on. *)
Fixpoint colSpanOptionFrom (all : list Column) (index : Z)
    (rest : list Column) : list (Js.value * list Js.value) :=
  match rest with
  | [] => []
  | column :: rest' =>
      match colSpan column with
      | Some n =>
          if negb (n =? 0)%Z then
            [(title column,
              map keyOrDataIndex (slice index (index + n) all))]
          else []
      | None => []
      end ++ colSpanOptionFrom all (index + 1) rest'
  end.

(** [this.colSpanOption] as the constructor fills it. *)
Definition colSpanOption (props : Props) : list (Js.value * list Js.value) :=
  colSpanOptionFrom (columns props) 0 (columns props).

(** The checked keys the constructor starts from. *)
Definition initialOption (props : Props) : list Js.value :=
  map getColumnKey
    (filter (fun column =>
               findIndex (fun k => k === getColumnKey column)
                 (hideColumns props) =? -1)%Z
       (filter spanned (columns props))).

Definition construct (props : Props) : State :=
  {| visible := false;
     checkedOption := initialOption props;
     checkedOptionConfirm := initialOption props |}.

Definition isFixed (column : Column) : bool := Js.truthy (fixed column).

(** The [disabled] expression of [getOptions]; it raises when it reads
    the last column that is not fixed and there is none. *)
Definition optionDisabled (props : Props) (st : State) (column : Column)
  : Js.result bool :=
  let notFixedColumns := filter (fun c => negb (isFixed c)) (columns props) in
  let isAnyColumnsFixed := existsb isFixed (columns props) in
  let uniqKey := getColumnKey column in
  if isFixed column then Js.Ok true
  else if Js.truthy (children column) then Js.Ok true
  else
    match (if isAnyColumnsFixed then
             match last (map Some notFixedColumns) None with
             | Some lastColumn => Js.Ok (uniqKey === keyOrDataIndex lastColumn)
             | None => Js.TypeError
             end
           else Js.Ok false) with
    | Js.TypeError => Js.TypeError
    | Js.Ok true => Js.Ok true
    | Js.Ok false =>
        Js.Ok
          (negb (indexOf (checkedOption st) (getColumnKey column) =? -1)%Z
           && (Z.of_nat
                 (List.length
                    (filter (fun c =>
                               negb (indexOf (checkedOption st)
                                       (getColumnKey c) =? -1)%Z)
                       notFixedColumns)) =? 1)%Z)
    end.

(** [getOptions] *)
Definition getOptions (props : Props) (st : State)
  : Js.result (list CheckboxOption) :=
  match mapResult
          (fun column =>
             match optionDisabled props st column with
             | Js.Ok d =>
                 Js.Ok (mkCheckboxOption (title column) (getColumnKey column) d)
             | Js.TypeError => Js.TypeError
             end)
          (filter spanned (columns props)) with
  | Js.Ok options =>
      Js.Ok (filter (fun option =>
                       findIndex (fun k => k === value option)
                         (defaultColumns props) =? -1)%Z
               options)
  | Js.TypeError => Js.TypeError
  end.

(** [getDefaultOption] *)
Definition getDefaultOption (props : Props) : list CheckboxOption :=
  map (fun column => mkCheckboxOption (title column) (getColumnKey column) true)
    (filter (fun column =>
               negb (findIndex (fun k => k === getColumnKey column)
                       (defaultColumns props) =? -1)%Z)
       (columns props)).

(** The [map] callback of [handleOk]: a merged header stands for the
    columns it spans. *)
Definition expand (props : Props) (option : CheckboxOption) : Nested :=
  let indexOfColSpan :=
    findIndex (fun o => fst o === value option) (colSpanOption props) in
  if negb (indexOfColSpan =? -1)%Z then
    Nest (map Leaf
            (snd (nth (Z.to_nat indexOfColSpan) (colSpanOption props)
                    (Js.undefined, []))))
  else Leaf (value option).

(** The keys [handleOk] hands to the host's [onChange], read from the
    committed state. *)
Definition hiddenKeys (props : Props) (committed : State)
  : Js.result (list Js.value) :=
  match getOptions props committed with
  | Js.Ok options =>
      Js.Ok (flatten
               (map (expand props)
                  (filter (fun option =>
                             (indexOf (checkedOptionConfirm committed)
                                (value option) =? -1)%Z)
                     options)))
  | Js.TypeError => Js.TypeError
  end.

Inductive Event : Type :=
| ShowModal
| ModalOk
| ModalCancel
| CheckChange (checkedOption : list Js.value).

(** [showModal], [handleOk], [handleCancel] and [onChange]: the next
    state and the calls of the host's [onChange]. *)
Definition handle (props : Props) (st : State) (e : Event)
  : Js.result (State * list (list Js.value)) :=
  match e with
  | ShowModal =>
      Js.Ok (mkState true (checkedOption st) (checkedOptionConfirm st), [])
  | ModalOk =>
      let committed := mkState false (checkedOption st) (checkedOption st) in
      match hiddenKeys props committed with
      | Js.Ok hidden => Js.Ok (committed, [hidden])
      | Js.TypeError => Js.TypeError
      end
  | ModalCancel =>
      Js.Ok (mkState false (checkedOptionConfirm st) (checkedOptionConfirm st),
             [])
  | CheckChange checked =>
      Js.Ok (mkState (visible st) checked (checkedOptionConfirm st), [])
  end.

(** The [disabled] flag without the read of the last column. *)
Definition locked (props : Props) (st : State) (column : Column) : bool :=
  let notFixedColumns := filter (fun c => negb (isFixed c)) (columns props) in
  isFixed column
  || Js.truthy (children column)
  || (existsb isFixed (columns props)
      && match last (map Some notFixedColumns) None with
         | Some lastColumn => getColumnKey column === keyOrDataIndex lastColumn
         | None => false
         end)
  || (negb (indexOf (checkedOption st) (getColumnKey column) =? -1)%Z
      && (Z.of_nat
            (List.length
               (filter (fun c =>
                          negb (indexOf (checkedOption st)
                                  (getColumnKey c) =? -1)%Z)
                  notFixedColumns)) =? 1)%Z).

(** A run of events: the final state and all calls of the host's
    [onChange], or the first raise. *)
Fixpoint run (props : Props) (st : State) (es : list Event)
  : Js.result (State * list (list Js.value)) :=
  match es with
  | [] => Js.Ok (st, [])
  | e :: es' =>
      match handle props st e with
      | Js.TypeError => Js.TypeError
      | Js.Ok (st', calls) =>
          match run props st' es' with
          | Js.TypeError => Js.TypeError
          | Js.Ok (st'', calls') => Js.Ok (st'', calls ++ calls')
          end
      end
  end.

Definition isCheckChange (e : Event) : Prop :=
  match e with CheckChange _ => True | _ => False end.

(** [k] is one of the keys [l]. *)
Definition has (l : list Js.value) (k : Js.value) : bool :=
  negb (indexOf l k =? -1)%Z.

(** A plain column: no merged header, not fixed, no children. *)
Definition plainColumn (k t : Js.value) : Column :=
  mkColumn t k Js.undefined None Js.undefined Js.undefined.

End ColumnFiltrate.

(** ** Facts about the array helpers *)

Section ArrayFacts.
Variable A : Type.
Implicit Types (p : A -> bool) (l : list A).

Lemma findIndex_bounds p l :
  (-1 <= findIndex p l < Z.of_nat (List.length l))%Z.
Proof.
  induction l as [|x l IH]; simpl; [lia|].
  destruct (p x); [lia|].
  destruct (findIndex p l <? 0)%Z eqn:E; lia.
Qed.

Lemma findIndex_none p l :
  findIndex p l = (-1)%Z <-> find p l = None.
Proof.
  induction l as [|x l IH]; simpl; [tauto|].
  pose proof (findIndex_bounds p l) as B.
  destruct (p x); [split; [lia|discriminate]|].
  destruct (findIndex p l <? 0)%Z eqn:E.
  - apply Z.ltb_lt in E. split; intros _; [apply IH; lia|reflexivity].
  - apply Z.ltb_ge in E. split; [lia|]. intros H. apply IH in H. lia.
Qed.

Lemma find_none_forall p l :
  find p l = None <-> forall x, In x l -> p x = false.
Proof.
  split.
  - intros H x Hx. exact (find_none p l H x Hx).
  - induction l as [|x l IH]; simpl; intros H; [reflexivity|].
    rewrite (H x (or_introl eq_refl)). apply IH. intros y Hy.
    apply H. now right.
Qed.

(** A found index splits the list at the first match. *)
Lemma findIndex_split p l :
  (0 <= findIndex p l)%Z ->
  exists l1 x l2,
    l = l1 ++ x :: l2 /\ findIndex p l = Z.of_nat (List.length l1) /\
    p x = true /\ find p l1 = None.
Proof.
  induction l as [|x l IH]; simpl; [lia|].
  destruct (p x) eqn:Px.
  - intros _. exists [], x, l. now simpl.
  - destruct (findIndex p l <? 0)%Z eqn:E; [lia|]. intros _.
    apply Z.ltb_ge in E. destruct (IH E) as (l1 & y & l2 & -> & Hi & Py & Hn).
    exists (x :: l1), y, l2. simpl. rewrite Px, Hi.
    repeat split; auto. lia.
Qed.

Lemma findIndex_item p l d :
  (0 <= findIndex p l)%Z ->
  In (nth (Z.to_nat (findIndex p l)) l d) l /\
  p (nth (Z.to_nat (findIndex p l)) l d) = true.
Proof.
  intros H. destruct (findIndex_split p l H) as (l1 & x & l2 & -> & Hi & Px & _).
  rewrite Hi, Nat2Z.id, nth_middle. split; [|exact Px].
  apply in_or_app. right. now left.
Qed.

Lemma findIndex_app_last p l x :
  find p l = None -> p x = true ->
  findIndex p (l ++ [x]) = Z.of_nat (List.length l).
Proof.
  induction l as [|y l IH]; simpl; intros Hn Px.
  - now rewrite Px.
  - destruct (p y); [discriminate|]. rewrite (IH Hn Px).
    destruct (Z.of_nat (List.length l) <? 0)%Z eqn:E; [|lia].
    apply Z.ltb_lt in E. lia.
Qed.

Lemma clampIndex_in_range (len i : Z) :
  (0 <= i <= len)%Z -> clampIndex len i = i.
Proof.
  intros H. unfold clampIndex.
  destruct (i <? 0)%Z eqn:E; [apply Z.ltb_lt in E|]; lia.
Qed.

Lemma slice_prefix l1 x l2 :
  slice 0 (Z.of_nat (List.length l1)) (l1 ++ x :: l2) = l1.
Proof.
  unfold slice. rewrite !clampIndex_in_range
    by (rewrite length_app; simpl; lia).
  rewrite Z.sub_0_r, Nat2Z.id. simpl.
  now rewrite firstn_app, Nat.sub_diag, firstn_all, app_nil_r.
Qed.

Lemma sliceFrom_suffix l1 x l2 :
  sliceFrom (Z.of_nat (List.length l1) + 1) (l1 ++ x :: l2) = l2.
Proof.
  unfold sliceFrom, slice. rewrite !clampIndex_in_range
    by (rewrite length_app; simpl; lia).
  replace (Z.to_nat (Z.of_nat (List.length l1) + 1))
    with (List.length l1 + 1)%nat by lia.
  rewrite skipn_app, skipn_all2 by lia. simpl.
  replace (List.length l1 + 1 - List.length l1)%nat with 1%nat by lia.
  simpl. apply firstn_all2. rewrite length_app. simpl. lia.
Qed.

(** Removing the element at a found index, as the handlers do. *)
Lemma remove_at_found p l :
  (0 <= findIndex p l)%Z ->
  exists l1 x l2,
    l = l1 ++ x :: l2 /\ p x = true /\ find p l1 = None /\
    slice 0 (findIndex p l) l ++ sliceFrom (findIndex p l + 1) l = l1 ++ l2.
Proof.
  intros H. destruct (findIndex_split p l H) as (l1 & x & l2 & -> & Hi & Px & Hn).
  exists l1, x, l2. rewrite Hi, slice_prefix, sliceFrom_suffix. auto.
Qed.
End ArrayFacts.

Lemma strict_eq_true a b : (a === b) = true <-> a = b.
Proof.
  unfold Js.strict_eq. destruct (Js.value_eq_dec a b); split; congruence.
Qed.

Lemma strict_eq_refl a : (a === a) = true.
Proof. now apply strict_eq_true. Qed.

Lemma keyIs_true k o : keyIs k o = true <-> key o = k.
Proof. apply strict_eq_true. Qed.

(** [find] by key fails exactly when no entry carries the key. *)
Lemma find_key_none k l :
  find (keyIs k) l = None <-> ~ In k (map key l).
Proof.
  rewrite find_none_forall. split.
  - intros H Hin. apply in_map_iff in Hin. destruct Hin as (o & Hk & Ho).
    specialize (H o Ho). apply keyIs_true in Hk. congruence.
  - intros H o Ho. destruct (keyIs k o) eqn:E; [|reflexivity].
    apply keyIs_true in E. exfalso. apply H. apply in_map_iff. eauto.
Qed.

Lemma isSelected_iff k l :
  (0 <=? findIndex (keyIs k) l)%Z = true <-> In k (map key l).
Proof.
  pose proof (findIndex_bounds (keyIs k) l) as B.
  pose proof (findIndex_none (keyIs k) l) as N.
  pose proof (find_key_none k l) as F.
  destruct (in_dec Js.value_eq_dec k (map key l)) as [Hin|Hout].
  - split; [auto|]. intros _. apply Z.leb_le.
    destruct (Z.eq_dec (findIndex (keyIs k) l) (-1)) as [E|E]; [|lia].
    apply N, F in E. contradiction.
  - split; [|contradiction]. intros H. apply Z.leb_le in H.
    apply F, N in Hout. lia.
Qed.

Lemma isSome_find_key k l :
  isSome (find (keyIs k) l) = true <-> In k (map key l).
Proof.
  pose proof (find_key_none k l) as F.
  destruct (find (keyIs k) l) eqn:E; simpl.
  - split; [|auto]. intros _.
    destruct (in_dec Js.value_eq_dec k (map key l)); [assumption|].
    apply F in n. discriminate.
  - split; [discriminate|]. intros H. exfalso. now apply F.
Qed.

(** ** Facts about the option catalog *)

Lemma getOptionFromChild_filter (f : OptionProps -> bool) :
  forall child,
    getOptionFromChild (Some f) child
    = map selectOption (filter f (optionProps child)).
Proof.
  fix IH 1. intros [p|s cs|]; simpl.
  - now destruct (f p).
  - induction cs as [|c cs IHcs]; simpl; [reflexivity|].
    now rewrite filter_app, map_app, IH, IHcs.
  - reflexivity.
Qed.

Lemma getFilteredChild_options (fo : FilterOption) (search : string) :
  forall child,
    flat_map optionProps (getFilteredChild fo search child)
    = filter (filterFlag fo search) (optionProps child).
Proof.
  fix IH 1. intros [p|s cs|]; simpl.
  - destruct (filterFlag fo search p); simpl; reflexivity.
  - rewrite app_nil_r. induction cs as [|c cs IHcs]; simpl; [reflexivity|].
    now rewrite flat_map_app, filter_app, IH, IHcs.
  - reflexivity.
Qed.

Lemma flat_map_map_filter (A B : Type) (g : A -> B) (f : A -> bool)
    (h : Child -> list A) (k : Child -> list B) (cs : list Child) :
  (forall c, k c = map g (filter f (h c))) ->
  flat_map k cs = map g (filter f (flat_map h cs)).
Proof.
  intros H. induction cs as [|c cs IH]; simpl; [reflexivity|].
  now rewrite filter_app, map_app, H, IH.
Qed.

(** The live options are the options that are not disabled, in source
    order. *)
Lemma liveOptions_spec (props : SelectProps) :
  liveOptions props = enabledOptions (propChildren props).
Proof.
  unfold liveOptions, getOptionFromChildren, enabledOptions. simpl.
  apply flat_map_map_filter, getOptionFromChild_filter.
Qed.

(** The keyboard walks the options that pass the search filter and are
    not disabled, in source order. *)
Lemma keyboardOptions_spec (props : SelectProps) (st : SelectState) :
  keyboardOptions props st
  = enabledMatches (filterOption props) (searchValue st) (propChildren props).
Proof.
  unfold keyboardOptions, getOptionFromChildren, getFilteredChildren,
    enabledMatches. simpl.
  rewrite (flat_map_map_filter selectOption notDisabled optionProps
             (getOptionFromChild (Some notDisabled)))
    by apply getOptionFromChild_filter.
  do 2 f_equal.
  induction (propChildren props) as [|c cs IH]; simpl; [reflexivity|].
  now rewrite flat_map_app, filter_app, getFilteredChild_options, IH.
Qed.

Lemma keyboardOptions_search (props : SelectProps) (st st' : SelectState) :
  searchValue st' = searchValue st ->
  keyboardOptions props st' = keyboardOptions props st.
Proof. unfold keyboardOptions. now intros ->. Qed.

(** ** Option click *)

(** C1. In single mode a click on option [X] leaves exactly [[X]]
    selected, closes the popup, and calls [onChange] exactly when no
    selected entry carried [X]'s key: with the key when [labelInValue] is
    false, with the key/label/title object when it is true. *)
Theorem single_option_click (props : SelectProps) (st : SelectState)
    (X : SelectValue) :
  mode props = single ->
  let st' := step props st (OptionClick X) in
  let fired := notifications props st (OptionClick X) in
  selectValue st' = [X] /\
  popupVisible st' = false /\
  (forall arg, In (onChange arg) fired <->
     ~ In (key X) (map key (selectValue st)) /\
     arg = (if labelInValue props then ObjectArg X
            else ValueArg (key X))).
Proof.
  intros Hm. unfold step, notifications, handle, onOptionClick.
  rewrite Hm.
  pose proof (isSelected_iff (key X) (selectValue st)) as Hsel.
  destruct (0 <=? findIndex (keyIs (key X)) (selectValue st))%Z; cbn.
  - split; [reflexivity|split; [reflexivity|]]. intros arg. split.
    + intros [H|[]]. discriminate.
    + intros [H _]. exfalso. apply H. now apply Hsel.
  - assert (Hout : ~ In (key X) (map key (selectValue st))).
    { intros H. apply Hsel in H. discriminate. }
    destruct (labelInValue props); cbn;
      (split; [reflexivity|split; [reflexivity|]]); intros arg; split.
    all: try (intros [H|[H|[]]]; [discriminate|split; congruence]).
    all: intros [_ ->]; right; now left.
Qed.

Lemma single_option_click_witness :
  let props := Sample.props single false (FilterBoolean true) false in
  let st := Sample.state [Sample.B] [Sample.B] true Js.undefined in
  selectValue (step props st (OptionClick Sample.A)) = [Sample.A] /\
  popupVisible (step props st (OptionClick Sample.A)) = false.
Proof.
  intros props st.
  destruct (@single_option_click props st Sample.A eq_refl) as (H1 & H2 & _).
  split; [exact H1 | exact H2].
Defined.

Lemma multiple_click_step (props : SelectProps) (st : SelectState)
    (X : SelectValue) :
  mode props = multiple ->
  step props st (OptionClick X) =
    {| searchValue := searchValue st;
       selectValue := toggled X (selectValue st);
       selectValueForMultiplePanel := selectValueForMultiplePanel st;
       popupVisible := popupVisible st;
       activeKey := activeKey st |} /\
  notifications props st (OptionClick X) =
    [if (0 <=? findIndex (keyIs (key X)) (selectValue st))%Z
     then onDeselect X else onSelect X].
Proof.
  intros Hm. unfold step, notifications, handle, onOptionClick, toggled.
  rewrite Hm.
  destruct (0 <=? findIndex (keyIs (key X)) (selectValue st))%Z; cbn; auto.
Qed.

Lemma toggled_absent X l :
  ~ In (key X) (map key l) -> toggled X l = l ++ [X].
Proof.
  intros H. unfold toggled.
  destruct (0 <=? findIndex (keyIs (key X)) l)%Z eqn:E; [|reflexivity].
  apply isSelected_iff in E. contradiction.
Qed.

Lemma toggled_present X l :
  In (key X) (map key l) ->
  exists l1 x l2,
    l = l1 ++ x :: l2 /\ key x = key X /\ ~ In (key X) (map key l1) /\
    toggled X l = l1 ++ l2.
Proof.
  intros H. unfold toggled. apply isSelected_iff in H. rewrite H.
  apply Z.leb_le in H.
  destruct (remove_at_found (keyIs (key X)) l H)
    as (l1 & x & l2 & El & Px & Hn & Er).
  exists l1, x, l2. rewrite Er. repeat split; auto.
  - now apply keyIs_true.
  - now apply find_key_none.
Qed.

Lemma toggled_appended X l :
  ~ In (key X) (map key l) -> toggled X (l ++ [X]) = l.
Proof.
  intros H. unfold toggled.
  assert (Hi : findIndex (keyIs (key X)) (l ++ [X])
               = Z.of_nat (List.length l)).
  { apply findIndex_app_last; [now apply find_key_none|].
    apply strict_eq_refl. }
  rewrite Hi. destruct (0 <=? Z.of_nat (List.length l))%Z eqn:E;
    [|apply Z.leb_gt in E; lia].
  rewrite slice_prefix, sliceFrom_suffix. apply app_nil_r.
Qed.

(** C2, as the code has it.  In multiple mode an option click appends the
    option when no selected entry carries its key and removes the first
    entry carrying it otherwise, calls [onSelect] or [onDeselect]
    accordingly, and leaves the popup and the pending selection as they
    were.  A second click on the same option gives back the selection
    before the first when the option was absent; when it was selected
    (among entries with distinct keys) the two clicks move it to the end:
    the same keys, in another order unless it was the last entry. *)
Theorem multiple_option_click (props : SelectProps) (st : SelectState)
    (X : SelectValue) :
  mode props = multiple ->
  let st1 := step props st (OptionClick X) in
  let st2 := step props st1 (OptionClick X) in
  let fired := notifications props st (OptionClick X) in
  selectValueForMultiplePanel st1 = selectValueForMultiplePanel st /\
  popupVisible st1 = popupVisible st /\
  (~ In (key X) (map key (selectValue st)) ->
     selectValue st1 = selectValue st ++ [X] /\
     fired = [onSelect X] /\
     selectValue st2 = selectValue st) /\
  (In (key X) (map key (selectValue st)) ->
     exists l1 x l2,
       selectValue st = l1 ++ x :: l2 /\ key x = key X /\
       ~ In (key X) (map key l1) /\
       selectValue st1 = l1 ++ l2 /\
       fired = [onDeselect X] /\
       (NoDup (map key (selectValue st)) ->
          selectValue st2 = l1 ++ l2 ++ [X] /\
          Permutation (map key (selectValue st2))
            (map key (selectValue st)))).
Proof.
  intros Hm. cbv zeta.
  destruct (multiple_click_step props st X Hm) as [E1 EF].
  destruct (multiple_click_step props (step props st (OptionClick X)) X Hm)
    as [E2 _].
  rewrite E2, E1, EF. cbn.
  split; [reflexivity|split; [reflexivity|split]].
  - intros Hout. rewrite (toggled_absent X _ Hout).
    repeat split.
    + destruct (0 <=? findIndex (keyIs (key X)) (selectValue st))%Z eqn:E;
        [|reflexivity].
      apply isSelected_iff in E. contradiction.
    + now apply toggled_appended.
  - intros Hin.
    destruct (toggled_present X _ Hin) as (l1 & x & l2 & El & Kx & Hn & Et).
    exists l1, x, l2. rewrite Et. repeat split; auto.
    + apply isSelected_iff in Hin. now rewrite Hin.
    + rewrite El, map_app in H. cbn in H. apply NoDup_remove_2 in H.
      rewrite Kx, <- map_app in H.
      rewrite (toggled_absent X _ H). now rewrite app_assoc.
    + rewrite El, map_app in H. cbn in H. apply NoDup_remove_2 in H.
      rewrite Kx, <- map_app in H.
      rewrite (toggled_absent X _ H), El, !map_app. cbn.
      rewrite <- Kx, <- app_assoc.
      apply Permutation_app_head. symmetry.
      apply Permutation_cons_append.
Qed.

Lemma multiple_option_click_witness :
  let props := Sample.props multiple false (FilterBoolean true) false in
  let st := Sample.state [Sample.A] [] true Js.undefined in
  selectValue (step props st (OptionClick Sample.B)) = [Sample.A; Sample.B] /\
  selectValue
    (step props (step props st (OptionClick Sample.B)) (OptionClick Sample.B))
  = [Sample.A].
Proof.
  intros props st.
  destruct (@multiple_option_click props st Sample.B eq_refl)
    as (_ & _ & Habsent & _).
  assert (Hout : ~ In (key Sample.B) (map key (selectValue st))).
  { cbn. intros [H|[]]. discriminate. }
  destruct (Habsent Hout) as (H1 & _ & H2).
  split; [exact H1 | exact H2].
Defined.

(** C2, as stated, fails: with [A; B] selected, two clicks on [A] leave
    [B; A]. *)
Lemma double_click_reorders :
  let props := Sample.props multiple false (FilterBoolean true) false in
  let st := Sample.state [Sample.A; Sample.B] [] true Js.undefined in
  selectValue (run props st [OptionClick Sample.A; OptionClick Sample.A])
    = [Sample.B; Sample.A] /\
  selectValue (run props st [OptionClick Sample.A; OptionClick Sample.A])
    <> selectValue st.
Proof.
  cbv zeta. split; [vm_compute; reflexivity|].
  vm_compute. discriminate.
Qed.

(** ** Confirm, cancel and select-all *)

Lemma activeSelections_spec (props : SelectProps) (l : list SelectValue)
    (o : SelectValue) :
  In o (activeSelections props l) <-> In o l /\ resolvesLive props o.
Proof.
  unfold activeSelections, resolvesLive. rewrite <- liveOptions_spec.
  rewrite filter_In.
  rewrite isSome_find_key, in_map_iff.
  split; intros (H & x & H1 & H2); split; eauto.
Qed.

Lemma confirm_step (props : SelectProps) (st : SelectState) :
  step props st ConfirmClick =
    {| searchValue := searchValue st;
       selectValue := selectValue st;
       selectValueForMultiplePanel := selectValue st;
       popupVisible := false;
       activeKey := Js.undefined |} /\
  notifications props st ConfirmClick =
    [ onVisibleChange false;
      let output :=
        if filterInactiveOption props
        then activeSelections props (selectValue st) else selectValue st in
      if labelInValue props then onChange (ObjectsArg output)
      else onChange (KeysArg (map key output)) ].
Proof.
  unfold step, notifications, handle, handleConfirmSelect.
  destruct (labelInValue props); cbn; auto.
Qed.

(** C3. In multiple mode the confirm action copies the selection into the
    pending selection, closes the popup and calls [onChange] once with the
    final value (objects under [labelInValue], keys otherwise); under
    [filterInactiveOption] the final value holds exactly the selections
    whose key resolves against the live non-disabled options, in their
    order, and the whole selection otherwise. *)
Theorem confirm_commits_and_reports (props : SelectProps) (st : SelectState) :
  mode props = multiple ->
  let st' := step props st ConfirmClick in
  selectValueForMultiplePanel st' = selectValue st /\
  popupVisible st' = false /\
  exists output,
    notifications props st ConfirmClick =
      [ onVisibleChange false;
        onChange (if labelInValue props then ObjectsArg output
                  else KeysArg (map key output)) ] /\
    (filterInactiveOption props = false -> output = selectValue st) /\
    (filterInactiveOption props = true ->
       (forall o, In o output <-> In o (selectValue st) /\ resolvesLive props o)
       /\ exists keep, output = filter keep (selectValue st)).
Proof.
  intros _. cbv zeta. destruct (confirm_step props st) as [E N].
  rewrite E, N. cbn. split; [reflexivity|split; [reflexivity|]].
  exists (if filterInactiveOption props
          then activeSelections props (selectValue st) else selectValue st).
  split; [now destruct (labelInValue props)|].
  destruct (filterInactiveOption props); split; try discriminate; auto.
  intros _. split; [apply activeSelections_spec|].
  now eexists.
Qed.

Lemma confirm_commits_and_reports_witness :
  let props := Sample.props multiple false (FilterBoolean true) true in
  let st := Sample.state [Sample.C; Sample.A] [] true Js.undefined in
  selectValueForMultiplePanel (step props st ConfirmClick)
    = [Sample.C; Sample.A] /\
  popupVisible (step props st ConfirmClick) = false.
Proof.
  intros props st.
  destruct (@confirm_commits_and_reports props st eq_refl) as (H1 & H2 & _).
  split; [exact H1 | exact H2].
Defined.

(** C10. Under [filterInactiveOption] the confirm action filters only the
    value handed to [onChange]: the pending selection becomes the whole
    selection and the selection stays as it is, so a selection whose key
    resolves against no live option stays in both while neither it nor its
    key is in the reported value. *)
Theorem confirm_keeps_inactive_in_state (props : SelectProps)
    (st : SelectState) (o : SelectValue) :
  filterInactiveOption props = true ->
  In o (selectValue st) ->
  ~ resolvesLive props o ->
  let st' := step props st ConfirmClick in
  selectValue st' = selectValue st /\
  selectValueForMultiplePanel st' = selectValue st /\
  In o (selectValue st') /\
  In o (selectValueForMultiplePanel st') /\
  exists output,
    notifications props st ConfirmClick =
      [ onVisibleChange false;
        onChange (if labelInValue props then ObjectsArg output
                  else KeysArg (map key output)) ] /\
    ~ In o output /\ ~ In (key o) (map key output).
Proof.
  intros Hf Hin Hres. cbv zeta. destruct (confirm_step props st) as [E N].
  rewrite E, N, Hf. cbn. repeat split; auto.
  exists (activeSelections props (selectValue st)).
  split; [now destruct (labelInValue props)|]. split.
  - intros H. apply activeSelections_spec in H. tauto.
  - intros H. apply in_map_iff in H. destruct H as (o' & Hk & Ho').
    apply activeSelections_spec in Ho'. destruct Ho' as (_ & opt & Hopt & Hk').
    apply Hres. exists opt. split; [assumption|congruence].
Qed.

Lemma confirm_keeps_inactive_in_state_witness :
  let props := Sample.props multiple false (FilterBoolean true) true in
  let st := Sample.state [Sample.C; Sample.A] [] true Js.undefined in
  selectValue (step props st ConfirmClick) = [Sample.C; Sample.A] /\
  selectValueForMultiplePanel (step props st ConfirmClick)
    = [Sample.C; Sample.A] /\
  notifications props st ConfirmClick
    = [onVisibleChange false; onChange (KeysArg [Js.str "a"])].
Proof.
  intros props st.
  assert (Hin : In Sample.C (selectValue st)) by (now left).
  assert (Hres : ~ resolvesLive props Sample.C).
  { intros (opt & Hopt & Hk). cbn in Hopt.
    destruct Hopt as [<-|[<-|[]]]; discriminate. }
  destruct (@confirm_keeps_inactive_in_state props st Sample.C
              eq_refl Hin Hres) as (H1 & H2 & _).
  split; [exact H1|split; [exact H2|reflexivity]].
Defined.

Lemma cancel_step (props : SelectProps) (st : SelectState) :
  step props st CancelClick =
    {| searchValue := searchValue st;
       selectValue := selectValueForMultiplePanel st;
       selectValueForMultiplePanel := selectValueForMultiplePanel st;
       popupVisible := false;
       activeKey := Js.undefined |} /\
  notifications props st CancelClick = [onVisibleChange false].
Proof. split; reflexivity. Qed.

Lemma trigger_close_step (props : SelectProps) (st : SelectState) :
  mode props = multiple ->
  step props st (TriggerVisibleChange false) = step props st CancelClick /\
  notifications props st (TriggerVisibleChange false) = [onVisibleChange false].
Proof.
  intros Hm.
  unfold step, notifications, handle, visibleChangeFromTrigger,
    handleCancelSelect.
  rewrite Hm. split; reflexivity.
Qed.

(** The cancel button and a close reported by the trigger discard the
    uncommitted toggles. *)
Lemma cancel_and_trigger_close_restore (props : SelectProps)
    (st : SelectState) (e : Event) :
  mode props = multiple ->
  e = CancelClick \/ e = TriggerVisibleChange false ->
  selectValue (step props st e) = selectValueForMultiplePanel st /\
  selectValueForMultiplePanel (step props st e)
    = selectValueForMultiplePanel st /\
  popupVisible (step props st e) = false /\
  notifications props st e = [onVisibleChange false].
Proof.
  intros Hm [-> | ->].
  - destruct (cancel_step props st) as [E N]. rewrite E, N. now cbn.
  - destruct (trigger_close_step props st Hm) as [E N].
    destruct (cancel_step props st) as [E' _]. rewrite E, E', N. now cbn.
Qed.

(** C4 at the Escape key.  In multiple mode, with [A] toggled on and
    nothing committed, Escape closes the popup and keeps [A] in the
    selection, where the cancel button and a close reported by the trigger
    restore the empty pending selection. *)
Theorem escape_close_keeps_uncommitted_toggle :
  let props := Sample.props multiple false (FilterBoolean true) false in
  let st := Sample.state [] [] false Js.undefined in
  let opened := run props st [TriggerVisibleChange true; OptionClick Sample.A] in
  popupVisible opened = true /\
  selectValue opened = [Sample.A] /\
  selectValueForMultiplePanel opened = [] /\
  popupVisible (step props opened (KeyDown ESC)) = false /\
  selectValue (step props opened (KeyDown ESC)) = [Sample.A] /\
  selectValueForMultiplePanel (step props opened (KeyDown ESC)) = [] /\
  notifications props opened (KeyDown ESC) = [onVisibleChange false] /\
  selectValue (step props opened CancelClick) = [] /\
  selectValue (step props opened (TriggerVisibleChange false)) = [].
Proof. cbv zeta. repeat split; vm_compute; reflexivity. Qed.

Lemma select_all_step (props : SelectProps) (st : SelectState) :
  step props st SelectAllClick =
    {| searchValue := searchValue st;
       selectValue :=
         if isSelectAll props false st then [] else liveOptions props;
       selectValueForMultiplePanel := selectValueForMultiplePanel st;
       popupVisible := popupVisible st;
       activeKey := activeKey st |} /\
  notifications props st SelectAllClick = [].
Proof. split; reflexivity. Qed.

Lemma isSelectAll_spec (props : SelectProps) (st : SelectState) :
  isSelectAll props false st = true <->
  forall o, In o (liveOptions props) ->
            In (key o) (map key (selectValue st)).
Proof.
  unfold isSelectAll, every. rewrite forallb_forall.
  split; intros H o Ho; now apply isSome_find_key, H.
Qed.

(** C9. The select-all toggle empties the selection when every option
    of the catalog that is not disabled has its key in the selection, and
    otherwise selects exactly the sequence of the options that are not
    disabled; with no such option at all (an empty or fully disabled
    catalog) it empties the selection.  Nothing else changes and no
    callback is called. *)
Theorem select_all_toggle (props : SelectProps) (st : SelectState) :
  mode props = multiple ->
  let st' := step props st SelectAllClick in
  let enabled := enabledOptions (propChildren props) in
  let allSelected :=
    forall o, In o enabled -> In (key o) (map key (selectValue st)) in
  (allSelected -> selectValue st' = []) /\
  (~ allSelected -> selectValue st' = enabled) /\
  (enabled = [] -> selectValue st' = []) /\
  selectValueForMultiplePanel st' = selectValueForMultiplePanel st /\
  popupVisible st' = popupVisible st /\
  activeKey st' = activeKey st /\
  searchValue st' = searchValue st /\
  notifications props st SelectAllClick = [].
Proof.
  intros _. cbv zeta. destruct (select_all_step props st) as [E N].
  rewrite E, N. cbn [selectValue selectValueForMultiplePanel popupVisible
                       activeKey searchValue].
  pose proof (isSelectAll_spec props st) as Hall.
  rewrite <- !liveOptions_spec.
  destruct (isSelectAll props false st).
  - split; [reflexivity|]. split; [|repeat split; reflexivity].
    intros H. exfalso. apply H. now apply Hall.
  - assert (Hn : ~ (forall o, In o (liveOptions props) ->
                              In (key o) (map key (selectValue st)))).
    { intros H. apply Hall in H. discriminate. }
    split; [intros H; contradiction|]. split; [reflexivity|].
    split; [|repeat split; reflexivity].
    intros H. exfalso. apply Hn. rewrite H. intros o [].
Qed.

Lemma select_all_toggle_witness :
  let props := Sample.props multiple false (FilterBoolean true) false in
  selectValue
    (step props (Sample.state [Sample.A] [] true Js.undefined) SelectAllClick)
    = [Sample.A; Sample.B] /\
  selectValue
    (step props (Sample.state [Sample.B; Sample.A] [] true Js.undefined)
       SelectAllClick)
    = [].
Proof.
  intros props. split.
  - destruct (@select_all_toggle props
                (Sample.state [Sample.A] [] true Js.undefined) eq_refl)
      as (_ & H & _).
    apply H. intros Hall.
    assert (Hb : In Sample.B (enabledOptions (propChildren props)))
      by (cbn; auto).
    specialize (Hall _ Hb). cbn in Hall. destruct Hall as [E|[]].
    discriminate.
  - destruct (@select_all_toggle props
                (Sample.state [Sample.B; Sample.A] [] true Js.undefined)
                eq_refl) as (H & _).
    apply H. intros o Ho. cbn in Ho. destruct Ho as [<-|[<-|[]]]; cbn; auto.
Defined.

(** ** Keyboard navigation *)

Lemma length_zero_iff (A : Type) (l : list A) :
  (Z.of_nat (List.length l) =? 0)%Z = true <-> l = [].
Proof.
  destruct l; simpl; [tauto|]. split; discriminate.
Qed.

Lemma arrow_step (props : SelectProps) (st : SelectState) (k : KeyCode) :
  k = UP \/ k = DOWN ->
  keyboardOptions props st <> [] ->
  step props st (KeyDown k)
  = withActiveKey st
      (key (item (keyboardOptions props st)
              (arrowTarget k st (keyboardOptions props st)))) /\
  notifications props st (KeyDown k) = [].
Proof.
  intros Hk Hne.
  unfold step, notifications, handle, handleKeyboardEvent, arrowTarget.
  pose proof (length_zero_iff (keyboardOptions props st)) as Hz.
  destruct (Z.of_nat (List.length (keyboardOptions props st)) =? 0)%Z eqn:E;
    [exfalso; now apply Hne, Hz|].
  destruct Hk as [-> | ->]; cbn [keyCodeIs andb orb];
    destruct (activeKey st === Js.undefined); cbn [negb];
    try destruct (findIndex (keyIs (activeKey st)) (keyboardOptions props st)
                  =? -1)%Z;
    split; reflexivity.
Qed.

Lemma empty_list_step (props : SelectProps) (st : SelectState) (k : KeyCode) :
  k = ENTER \/ k = UP \/ k = DOWN ->
  keyboardOptions props st = [] ->
  step props st (KeyDown k) = st /\ notifications props st (KeyDown k) = [].
Proof.
  intros Hk He.
  unfold step, notifications, handle, handleKeyboardEvent.
  rewrite He.
  destruct Hk as [-> | [-> | ->]]; split; reflexivity.
Qed.

Lemma item_in (l : list SelectValue) (i : Z) :
  (0 <= i < Z.of_nat (List.length l))%Z -> In (item l i) l.
Proof. intros H. unfold item. apply nth_In. lia. Qed.

Lemma arrowTarget_range (k : KeyCode) (st : SelectState)
    (l : list SelectValue) :
  l <> [] -> (0 <= arrowTarget k st l < Z.of_nat (List.length l))%Z.
Proof.
  intros Hne. unfold arrowTarget.
  pose proof (findIndex_bounds (keyIs (activeKey st)) l) as B.
  assert (0 < Z.of_nat (List.length l))%Z by (destruct l; [congruence|simpl; lia]).
  destruct (activeKey st === Js.undefined); [lia|].
  destruct (findIndex (keyIs (activeKey st)) l =? -1)%Z eqn:E1; [lia|].
  apply Z.eqb_neq in E1.
  destruct (findIndex (keyIs (activeKey st)) l =? 0)%Z eqn:E2;
    [apply Z.eqb_eq in E2|apply Z.eqb_neq in E2];
    (destruct (findIndex (keyIs (activeKey st)) l + 1
               =? Z.of_nat (List.length l))%Z eqn:E3;
     [apply Z.eqb_eq in E3|apply Z.eqb_neq in E3]);
    destruct k; lia.
Qed.

(** C5. Over a non-empty list of filtered, non-disabled options, with
    the highlighted key found at index [i]: ArrowDown highlights the
    option at [i + 1], and the first one from the last; ArrowUp the option
    at [i - 1], and the last one from the first; with no highlighted key
    either arrow highlights the first option.  Nothing else changes.
    Over an empty list Enter, ArrowUp and ArrowDown change nothing. *)
Theorem arrow_keys_walk_and_wrap (props : SelectProps) (st : SelectState) :
  let l := keyboardOptions props st in
  let len := Z.of_nat (List.length l) in
  let i := findIndex (keyIs (activeKey st)) l in
  l = enabledMatches (filterOption props) (searchValue st)
        (propChildren props) /\
  (l <> [] ->
   forall k, k = UP \/ k = DOWN ->
     let st' := step props st (KeyDown k) in
     st' = withActiveKey st (activeKey st') /\
     notifications props st (KeyDown k) = [] /\
     (exists o, In o l /\ activeKey st' = key o) /\
     (activeKey st = Js.undefined -> activeKey st' = key (item l 0)) /\
     (activeKey st <> Js.undefined -> (0 <= i)%Z ->
        (k = DOWN -> activeKey st' = key (item l ((i + 1) mod len))) /\
        (k = UP -> activeKey st' = key (item l ((i - 1) mod len))))) /\
  (l = [] ->
   forall k, k = ENTER \/ k = UP \/ k = DOWN ->
     step props st (KeyDown k) = st /\
     notifications props st (KeyDown k) = []).
Proof.
  cbv zeta. split; [apply keyboardOptions_spec|]. split.
  - intros Hne k Hk. destruct (arrow_step props st Hk Hne) as [E N].
    pose proof (arrowTarget_range k st Hne) as R.
    pose proof (findIndex_bounds (keyIs (activeKey st))
                  (keyboardOptions props st)) as B.
    rewrite E, N. cbn [activeKey withActiveKey].
    split; [reflexivity|split; [reflexivity|split]].
    { eexists. split; [apply item_in; exact R|reflexivity]. }
    unfold arrowTarget in *. split.
    + intros Hu. rewrite Hu. now rewrite strict_eq_refl.
    + intros Hd Hi.
      destruct (activeKey st === Js.undefined) eqn:Eu;
        [apply strict_eq_true in Eu; contradiction|].
      destruct (findIndex (keyIs (activeKey st)) (keyboardOptions props st)
                =? -1)%Z eqn:E1; [apply Z.eqb_eq in E1; lia|].
      split; intros ->.
      * destruct (findIndex (keyIs (activeKey st)) (keyboardOptions props st)
                  + 1 =? Z.of_nat (List.length (keyboardOptions props st)))%Z
          eqn:E2.
        -- apply Z.eqb_eq in E2. rewrite E2, Z.mod_same by lia. reflexivity.
        -- apply Z.eqb_neq in E2. rewrite Z.mod_small by lia. reflexivity.
      * destruct (findIndex (keyIs (activeKey st)) (keyboardOptions props st)
                  =? 0)%Z eqn:E2.
        -- apply Z.eqb_eq in E2. rewrite E2. f_equal. f_equal.
           apply Z.mod_unique with (q := (-1)%Z); lia.
        -- apply Z.eqb_neq in E2. rewrite Z.mod_small by lia. reflexivity.
  - intros He k Hk. now apply empty_list_step.
Qed.

Lemma arrow_keys_walk_and_wrap_witness :
  let props := Sample.props single false (FilterBoolean true) false in
  let st := Sample.state [] [] true (Js.str "b") in
  activeKey (step props st (KeyDown DOWN)) = Js.str "a" /\
  activeKey (step props st (KeyDown UP)) = Js.str "a".
Proof.
  intros props st.
  destruct (arrow_keys_walk_and_wrap props st) as (_ & Hwalk & _).
  assert (Hne : keyboardOptions props st <> []) by (cbn; discriminate).
  assert (Hset : activeKey st <> Js.undefined) by (cbn; discriminate).
  assert (Hi : (0 <= findIndex (keyIs (activeKey st))
                       (keyboardOptions props st))%Z)
    by (vm_compute; discriminate).
  split.
  - destruct (Hwalk Hne DOWN (or_intror eq_refl)) as (_ & _ & _ & _ & Hmove).
    exact (proj1 (Hmove Hset Hi) eq_refl).
  - destruct (Hwalk Hne UP (or_introl eq_refl)) as (_ & _ & _ & _ & Hmove).
    exact (proj2 (Hmove Hset Hi) eq_refl).
Defined.

(** C6. Enter, with the highlighted key found in the filtered,
    non-disabled list at an option [o].  When no selected entry carries
    that key: in single mode the selection becomes [[o]], the popup closes
    and [onChange] is called with [o] (its key without [labelInValue]); in
    multiple mode [o] is appended to the selection, the popup and the
    pending selection stay as they are, and no callback is called.  When a
    selected entry carries the key, Enter changes nothing and calls
    nothing. *)
Theorem enter_key_selects_highlighted (props : SelectProps)
    (st : SelectState) :
  let l := keyboardOptions props st in
  let i := findIndex (keyIs (activeKey st)) l in
  let o := item l i in
  let st' := step props st (KeyDown ENTER) in
  let fired := notifications props st (KeyDown ENTER) in
  (0 <= i)%Z ->
  In o l /\ key o = activeKey st /\
  (~ In (activeKey st) (map key (selectValue st)) ->
     match mode props with
     | single =>
         selectValue st' = [o] /\ popupVisible st' = false /\
         fired = [ onVisibleChange false;
                   onChange (if labelInValue props then ObjectArg o
                             else ValueArg (key o)) ]
     | multiple =>
         selectValue st' = selectValue st ++ [o] /\
         popupVisible st' = popupVisible st /\
         selectValueForMultiplePanel st' = selectValueForMultiplePanel st /\
         fired = []
     end) /\
  (In (activeKey st) (map key (selectValue st)) -> st' = st /\ fired = []).
Proof.
  cbv zeta. intros Hi.
  pose proof (findIndex_bounds (keyIs (activeKey st))
                (keyboardOptions props st)) as B.
  destruct (findIndex_item (keyIs (activeKey st)) (keyboardOptions props st)
              emptyObject Hi) as [Hin Hkey].
  apply keyIs_true in Hkey.
  split; [exact Hin|split; [exact Hkey|]].
  unfold step, notifications, handle, handleKeyboardEvent.
  cbn [keyCodeIs andb orb].
  destruct (Z.of_nat (List.length (keyboardOptions props st)) =? 0)%Z eqn:E0;
    [apply Z.eqb_eq in E0; lia|].
  destruct (findIndex (keyIs (activeKey st)) (keyboardOptions props st)
            =? -1)%Z eqn:E1; [apply Z.eqb_eq in E1; lia|].
  cbn [negb].
  pose proof (isSome_find_key (activeKey st) (selectValue st)) as Hsel.
  destruct (isSome (find (keyIs (activeKey st)) (selectValue st))); cbn [negb].
  - split.
    + intros H. exfalso. apply H. now apply Hsel.
    + intros _. cbn. auto.
  - split.
    + intros _. destruct (mode props); cbn.
      * unfold enterCallback. destruct (labelInValue props); cbn; auto.
      * auto.
    + intros H. apply Hsel in H. discriminate.
Qed.

Lemma enter_key_selects_highlighted_witness :
  let props := Sample.props multiple false (FilterBoolean true) false in
  let st := Sample.state [Sample.A] [] true (Js.str "b") in
  selectValue (step props st (KeyDown ENTER)) = [Sample.A; Sample.B] /\
  notifications props st (KeyDown ENTER) = [].
Proof.
  intros props st.
  assert (Hi : (0 <= findIndex (keyIs (activeKey st))
                       (keyboardOptions props st))%Z)
    by (vm_compute; discriminate).
  destruct (enter_key_selects_highlighted props st Hi) as (_ & _ & Hnew & _).
  assert (Hout : ~ In (activeKey st) (map key (selectValue st))).
  { cbn. intros [H|[]]. discriminate. }
  destruct (Hnew Hout) as (H1 & _ & _ & H2).
  split; [exact H1 | exact H2].
Defined.

(** ** The highlighted key across transitions *)

Lemma keydown_highlight (props : SelectProps) (st : SelectState)
    (k : KeyCode) :
  let st' := step props st (KeyDown k) in
  searchValue st' = searchValue st /\
  (activeKey st' = activeKey st \/ activeKey st' = Js.undefined \/
   exists o, In o (keyboardOptions props st) /\ key o = activeKey st').
Proof.
  cbv zeta.
  assert (Hd : keyboardOptions props st = []
               \/ keyboardOptions props st <> []).
  { destruct (keyboardOptions props st); [now left|right; discriminate]. }
  destruct Hd as [He|Hne].
  - destruct k.
    + unfold step, handle, handleKeyboardEvent. cbn [keyCodeIs andb orb].
      destruct (esc props); cbn; auto.
    + rewrite (proj1 (empty_list_step props st (or_introl eq_refl) He)). auto.
    + rewrite (proj1 (empty_list_step props st
                        (or_intror (or_introl eq_refl)) He)). auto.
    + rewrite (proj1 (empty_list_step props st
                        (or_intror (or_intror eq_refl)) He)). auto.
    + cbn. auto.
  - destruct k.
    + unfold step, handle, handleKeyboardEvent. cbn [keyCodeIs andb orb].
      destruct (esc props); cbn; auto.
    + unfold step, handle, handleKeyboardEvent. cbn [keyCodeIs andb orb].
      destruct (Z.of_nat (List.length (keyboardOptions props st)) =? 0)%Z;
        [cbn; auto|].
      destruct (negb (findIndex (keyIs (activeKey st))
                        (keyboardOptions props st) =? -1)%Z); [|cbn; auto].
      destruct (negb (isSome (find (keyIs (activeKey st)) (selectValue st))));
        [|cbn; auto].
      destruct (mode props); cbn; auto.
    + rewrite (proj1 (arrow_step props st (or_introl eq_refl) Hne)).
      cbn [searchValue activeKey withActiveKey]. split; [reflexivity|].
      right. right. eexists. split; [|reflexivity].
      apply item_in, arrowTarget_range, Hne.
    + rewrite (proj1 (arrow_step props st (or_intror eq_refl) Hne)).
      cbn [searchValue activeKey withActiveKey]. split; [reflexivity|].
      right. right. eexists. split; [|reflexivity].
      apply item_in, arrowTarget_range, Hne.
    + cbn. auto.
Qed.

Lemma step_highlight (props : SelectProps) (st : SelectState) (e : Event) :
  keepsHighlight e = true ->
  let st' := step props st e in
  searchValue st' = searchValue st /\
  (activeKey st' = activeKey st \/ activeKey st' = Js.undefined \/
   exists o, In o (keyboardOptions props st) /\ key o = activeKey st').
Proof.
  intros Hk. cbv zeta.
  destruct e as [obj|obj| | |v| | |text| |k]; try discriminate.
  - unfold step, handle, onOptionClick.
    destruct (mode props);
      destruct (0 <=? findIndex (keyIs (key obj)) (selectValue st))%Z;
      try destruct (labelInValue props); cbn; auto.
  - unfold step, handle, onOptionClick.
    destruct (mode props);
      destruct (0 <=? findIndex (keyIs (key obj)) (selectValue st))%Z;
      try destruct (labelInValue props); cbn; auto.
  - rewrite (proj1 (confirm_step props st)). cbn. auto.
  - rewrite (proj1 (cancel_step props st)). cbn. auto.
  - destruct v; [discriminate|].
    unfold step, handle, visibleChangeFromTrigger.
    destruct (mode props); cbn; auto.
  - rewrite (proj1 (select_all_step props st)). cbn. auto.
  - cbn. auto.
  - apply keydown_highlight.
Qed.

Lemma keyboardOptions_enabled_match (props : SelectProps) (st : SelectState)
    (o : SelectValue) :
  In o (keyboardOptions props st) ->
  exists p, In p (flat_map optionProps (propChildren props)) /\
            disabled p = false /\
            filterFlag (filterOption props) (searchValue st) p = true /\
            optionKey p = key o.
Proof.
  rewrite keyboardOptions_spec. unfold enabledMatches. intros H.
  apply in_map_iff in H. destruct H as (p & <- & Hp).
  apply filter_In in Hp. destruct Hp as [Hp Hd].
  apply filter_In in Hp. destruct Hp as [Hp Hf].
  exists p. repeat split; auto.
  unfold notDisabled in Hd. now destruct (disabled p).
Qed.

(** C8, as the code has it.  Every ArrowUp or ArrowDown over a non-empty
    list of filtered, non-disabled options leaves the highlighted key on
    an option of that list (one that passes the search filter and is not
    disabled), whatever it was before; and every transition other than a
    search edit and the opening of the popup keeps the highlighted key
    absent or on an option of that list once it is. *)
Theorem highlight_valid_but_for_search_and_open (props : SelectProps)
    (st : SelectState) :
  (forall k, k = UP \/ k = DOWN ->
     keyboardOptions props st <> [] ->
     let st' := step props st (KeyDown k) in
     (exists o, In o (keyboardOptions props st') /\ key o = activeKey st') /\
     (exists p, In p (flat_map optionProps (propChildren props)) /\
                disabled p = false /\
                filterFlag (filterOption props) (searchValue st') p = true /\
                optionKey p = activeKey st')) /\
  (forall e, keepsHighlight e = true ->
     activeKeyValid props st ->
     activeKeyValid props (step props st e)).
Proof.
  split.
  - intros k Hk Hne. cbv zeta.
    destruct (keydown_highlight props st k) as [Hs _].
    assert (Hin : exists o, In o (keyboardOptions props
                                    (step props st (KeyDown k))) /\
                            key o = activeKey (step props st (KeyDown k))).
    { rewrite (@keyboardOptions_search props _ _ Hs).
      rewrite (proj1 (arrow_step props st Hk Hne)).
      cbn [activeKey withActiveKey]. eexists. split; [|reflexivity].
      apply item_in, arrowTarget_range, Hne. }
    split; [exact Hin|]. destruct Hin as (o & Ho & Hk').
    destruct (keyboardOptions_enabled_match props _ o Ho)
      as (p & Hp & Hd & Hf & Hkey).
    exists p. repeat split; auto. congruence.
  - intros e Hk Hv. destruct (step_highlight props st e Hk) as [Hs Ha].
    unfold activeKeyValid. rewrite (@keyboardOptions_search props _ _ Hs).
    destruct Ha as [Ha|[Ha|Ha]]; [rewrite Ha; exact Hv|now left|now right].
Qed.

Lemma highlight_valid_but_for_search_and_open_witness :
  let props := Sample.props multiple false (FilterFunction Sample.labelContains)
                 false in
  let st := Sample.state [] [] true (Js.str "a") in
  activeKeyValid props (step props st (OptionClick Sample.B)) /\
  activeKeyValid props (step props st (KeyDown DOWN)).
Proof.
  intros props st.
  destruct (highlight_valid_but_for_search_and_open props st) as [Harrow Hkeep].
  assert (Hv : activeKeyValid props st).
  { right. exists Sample.A. split; [now left|reflexivity]. }
  split.
  - exact (Hkeep (OptionClick Sample.B) eq_refl Hv).
  - right. apply (Harrow DOWN (or_intror eq_refl)). cbn. discriminate.
Defined.

(** C8, as stated, fails.  With a host filter on the label: open the
    popup, press ArrowDown (highlighting [A]), then type a text only [B]
    matches; the highlighted key is that of the filtered-out [A].  And in
    single mode with the disabled [C] selected, opening the popup
    highlights [C]. *)
Lemma highlight_outlives_search_and_open :
  (let props := Sample.props single false
                  (FilterFunction Sample.labelContains) false in
   exists st0,
     construct props = Js.Ok st0 /\
     let st := run props st0 [ TriggerVisibleChange true; KeyDown DOWN;
                               SearchInput "Ban" ] in
     reachable props st /\
     activeKey st = Js.str "a" /\
     keyboardOptions props st = [Sample.B] /\
     ~ activeKeyValid props st) /\
  (let props := Sample.props single false (FilterBoolean true) false in
   let st0 := Sample.state [Sample.C] [Sample.C] false Js.undefined in
   let st := step props st0 (TriggerVisibleChange true) in
   activeKey st = Js.str "c" /\
   keyboardOptions props st = [Sample.A; Sample.B] /\
   ~ activeKeyValid props st).
Proof.
  split.
  - cbv zeta. eexists. split; [reflexivity|].
    split; [|split; [reflexivity|split; [reflexivity|]]].
    + eexists. eexists. split; reflexivity.
    + intros [H|(o & Ho & Hk)]; [discriminate|].
      destruct Ho as [<-|[]]. discriminate.
  - cbv zeta. split; [reflexivity|split; [reflexivity|]].
    intros [H|(o & Ho & Hk)]; [discriminate|].
    destruct Ho as [<-|[<-|[]]]; discriminate.
Qed.

(** ** Value normalization on matching and mismatched shapes *)

Lemma fromKey_entry optionList k : entryOfKey optionList k (fromKey optionList k).
Proof.
  unfold entryOfKey, fromKey, findOption. cbn. split; [reflexivity|]. split.
  - intros opt ->. now cbn.
  - intros H. apply find_key_none in H. rewrite H. now cbn.
Qed.

Lemma fromLabelled_entry optionList obj :
  entryOfObject optionList obj (fromLabelled optionList obj).
Proof.
  unfold entryOfObject, fromLabelled, findOption. cbn.
  split; [reflexivity|]. split; [|split].
  - intros H. unfold Js.or. now rewrite H, H.
  - intros opt ->. now cbn.
  - intros H Hl. apply find_key_none in H. rewrite H. cbn.
    unfold Js.or. now rewrite Hl.
Qed.

Lemma mapResult_objects optionList es objs :
  allSome (map objectOf es) = Some objs ->
  mapResult (labelledElem optionList) es
  = Js.Ok (map (fromLabelled optionList) objs).
Proof.
  revert objs. induction es as [|e es IH]; cbn; intros objs H.
  - now inversion H.
  - destruct e as [v|id o]; cbn in *; [discriminate|].
    destruct (allSome (map objectOf es)) as [r|]; [|discriminate].
    inversion H; subst. now rewrite (IH r eq_refl).
Qed.

(** C7, as the code has it.  On values of the shape that goes with
    [labelInValue], normalization returns a selection and never raises.
    Without [labelInValue]: a string or number is read as the one-element
    array of it, an array gives one entry per key in order, an absent
    value gives the empty selection; each entry takes label and title
    from the first option carrying its key and has the raw key as label
    when no option does.  Under [labelInValue]: an object is read as the
    one-element array of it, an array of objects gives one entry per
    object in order, with the raw key as label when neither the object
    nor an option gives one; a primitive gives the empty selection. *)
Theorem getValueFromProps_on_matching_shapes (cs : list Child) :
  let optionList := getOptionFromChildren cs [] None in
  (forall v ks, keysOf v = Some ks ->
     exists l, getValueFromProps v false cs = Js.Ok l /\
               Forall2 (entryOfKey optionList) ks l) /\
  (forall e, valueType (Scalar e) = TString \/ valueType (Scalar e) = TNumber ->
     getValueFromProps (Scalar e) false cs
     = getValueFromProps (Array [e]) false cs) /\
  (forall v objs, objectsOf v = Some objs ->
     exists l, getValueFromProps v true cs = Js.Ok l /\
               Forall2 (entryOfObject optionList) objs l) /\
  (forall id o,
     getValueFromProps (Scalar (Obj id o)) true cs
     = getValueFromProps (Array [Obj id o]) true cs) /\
  (forall p, valueType (Scalar (Prim p)) <> TObject ->
     getValueFromProps (Scalar (Prim p)) true cs = Js.Ok []).
Proof.
  cbv zeta. split; [|split; [|split; [|split]]].
  - assert (Hmap : forall ks,
              Forall2 (entryOfKey (getOptionFromChildren cs [] None)) ks
                (map (fromKey (getOptionFromChildren cs [] None)) ks)).
    { induction ks; cbn; constructor; auto using fromKey_entry. }
    intros v ks H. unfold getValueFromProps.
    destruct v as [[p|id o]|es]; cbn in H.
    + destruct p; inversion H; subst; cbn;
        (eexists; split; [reflexivity|]);
        first [apply (Hmap []) | apply (Hmap [_])].
    + discriminate.
    + inversion H; subst. cbn. eexists. split; [reflexivity|].
      rewrite <- (map_map elemValue
                    (fromKey (flat_map (getOptionFromChild None) cs))).
      apply Hmap.
  - intros [p|id o] [H|H]; try discriminate;
      destruct p; try discriminate; reflexivity.
  - intros v objs H. unfold getValueFromProps.
    destruct v as [[p|id o]|es]; cbn in H.
    + discriminate.
    + inversion H; subst. cbn. eexists. split; [reflexivity|].
      constructor; [apply fromLabelled_entry|constructor].
    + rewrite (mapResult_objects _ _ H). eexists. split; [reflexivity|].
      clear H. induction objs; cbn; constructor;
        auto using fromLabelled_entry.
  - intros id o. reflexivity.
  - intros p H. destruct p; cbn in *; congruence.
Qed.

Lemma getValueFromProps_on_matching_shapes_witness :
  (exists l,
     getValueFromProps (Scalar (Prim (Js.str "zzz"))) false Sample.catalog
       = Js.Ok l /\
     Forall2 (entryOfKey (getOptionFromChildren Sample.catalog [] None))
       [Js.str "zzz"] l) /\
  (exists l,
     getValueFromProps
       (Array [Obj 0 (mkSelectValue (Js.str "b") Js.undefined Js.undefined)])
       true Sample.catalog = Js.Ok l /\
     Forall2 (entryOfObject (getOptionFromChildren Sample.catalog [] None))
       [mkSelectValue (Js.str "b") Js.undefined Js.undefined] l).
Proof.
  destruct (getValueFromProps_on_matching_shapes Sample.catalog)
    as (Hkeys & _ & Hobjects & _).
  split.
  - exact (Hkeys (Scalar (Prim (Js.str "zzz"))) _ eq_refl).
  - exact (Hobjects
             (Array [Obj 0 (mkSelectValue (Js.str "b") Js.undefined
                              Js.undefined)]) _ eq_refl).
Defined.

(** C7, as stated, fails.  Without [labelInValue] an object value makes
    normalization raise ([value.map] is not a function); under
    [labelInValue] a raw key gives the empty selection, not a one-element
    one, and an array holding [null] raises. *)
Lemma getValueFromProps_mismatched_shapes :
  getValueFromProps
    (Scalar (Obj 0 (mkSelectValue (Js.str "a") (Js.str "Apple") Js.undefined)))
    false Sample.catalog = Js.TypeError /\
  getValueFromProps (Scalar (Prim (Js.str "a"))) true Sample.catalog
    = Js.Ok [] /\
  getValueFromProps (Array [Prim Js.null]) true Sample.catalog = Js.TypeError.
Proof. repeat split. Qed.

(** ** Tag removal, clearing, opening and closing *)

Lemma slice_drop_last (A : Type) (l : list A) :
  slice 0 (-1) l = removelast l.
Proof.
  unfold slice, clampIndex. cbn [Z.ltb Z.compare].
  rewrite Z.min_l by lia. cbn [Z.to_nat skipn].
  destruct l as [|a l]; [reflexivity|].
  rewrite Z.max_l by (cbn [List.length]; lia).
  rewrite Z.sub_0_r.
  replace (Z.to_nat (Z.of_nat (List.length (a :: l)) + -1))
    with (Nat.pred (List.length (a :: l))) by (cbn [List.length]; lia).
  symmetry. apply removelast_firstn_len.
Qed.

Lemma sliceFrom_start (A : Type) (l : list A) : sliceFrom 0 l = l.
Proof.
  unfold sliceFrom, slice. rewrite !clampIndex_in_range by lia.
  rewrite Z.sub_0_r, Nat2Z.id. cbn [Z.to_nat skipn]. apply firstn_all.
Qed.

Lemma label_close_step (props : SelectProps) (st : SelectState)
    (obj : SelectValue) :
  mode props = multiple ->
  let panel := selectValueForMultiplePanel st in
  let i := findIndex (keyIs (key obj)) panel in
  let changed := slice 0 i panel ++ sliceFrom (i + 1) panel in
  step props st (LabelCloseClick obj) =
    {| searchValue := searchValue st;
       selectValue := changed;
       selectValueForMultiplePanel := changed;
       popupVisible := popupVisible st;
       activeKey := activeKey st |} /\
  notifications props st (LabelCloseClick obj) =
    [ onDeselect obj;
      if labelInValue props then onChange (ObjectsArg changed)
      else onChange (KeysArg (map key changed)) ].
Proof.
  intros Hm. cbv zeta. unfold step, notifications, handle, onOptionClick.
  rewrite Hm. destruct (labelInValue props); split; reflexivity.
Qed.

(** X1. Tag removal in multiple mode, for a key the pending selection
    has: the first pending entry with that key is removed, the result
    becomes both the pending selection and the selection (so toggles not
    yet confirmed are lost), the popup stays as it is, and [onDeselect]
    then [onChange] are called, the latter with what is left. *)
Theorem label_close_removes_and_commits (props : SelectProps)
    (st : SelectState) (obj : SelectValue) :
  mode props = multiple ->
  In (key obj) (map key (selectValueForMultiplePanel st)) ->
  exists l1 x l2,
    selectValueForMultiplePanel st = l1 ++ x :: l2 /\
    key x = key obj /\ ~ In (key obj) (map key l1) /\
    let st' := step props st (LabelCloseClick obj) in
    selectValue st' = l1 ++ l2 /\
    selectValueForMultiplePanel st' = l1 ++ l2 /\
    popupVisible st' = popupVisible st /\
    notifications props st (LabelCloseClick obj) =
      [ onDeselect obj;
        onChange (if labelInValue props then ObjectsArg (l1 ++ l2)
                  else KeysArg (map key (l1 ++ l2))) ].
Proof.
  intros Hm Hin. destruct (label_close_step props st obj Hm) as [E N].
  apply isSelected_iff, Z.leb_le in Hin.
  destruct (remove_at_found (keyIs (key obj)) _ Hin)
    as (l1 & x & l2 & El & Px & Hn & Er).
  exists l1, x, l2. cbv zeta. rewrite E, N, Er. cbn.
  repeat split; auto.
  - now apply keyIs_true.
  - now apply find_key_none.
  - now destruct (labelInValue props).
Qed.

Lemma label_close_removes_and_commits_witness :
  let props := Sample.props multiple false (FilterBoolean true) false in
  let st := Sample.state [Sample.B] [Sample.A; Sample.B] false Js.undefined in
  exists l1 x l2,
    [Sample.A; Sample.B] = l1 ++ x :: l2 /\ key x = key Sample.A /\
    ~ In (key Sample.A) (map key l1) /\
    selectValue (step props st (LabelCloseClick Sample.A)) = l1 ++ l2.
Proof.
  intros props st.
  assert (Hin : In (key Sample.A) (map key (selectValueForMultiplePanel st)))
    by (now left).
  destruct (@label_close_removes_and_commits props st Sample.A eq_refl Hin)
    as (l1 & x & l2 & El & Kx & Hn & Hsel & _).
  exists l1, x, l2. auto.
Defined.

(** X2. Tag removal for a key the pending selection does not have:
    [findIndex] gives [-1], so the two slices are the pending selection
    without its last entry and the whole pending selection, and both
    selections become their concatenation. *)
Theorem label_close_missing_key (props : SelectProps) (st : SelectState)
    (obj : SelectValue) :
  mode props = multiple ->
  ~ In (key obj) (map key (selectValueForMultiplePanel st)) ->
  let st' := step props st (LabelCloseClick obj) in
  let panel := selectValueForMultiplePanel st in
  selectValue st' = removelast panel ++ panel /\
  selectValueForMultiplePanel st' = removelast panel ++ panel.
Proof.
  intros Hm Hout. cbv zeta.
  destruct (label_close_step props st obj Hm) as [E _]. rewrite E. cbn.
  apply find_key_none, findIndex_none in Hout. rewrite Hout.
  change (-1 + 1)%Z with 0%Z.
  now rewrite slice_drop_last, sliceFrom_start.
Qed.

Lemma label_close_missing_key_witness :
  let props := Sample.props multiple false (FilterBoolean true) false in
  let st := Sample.state [] [Sample.A; Sample.B] false Js.undefined in
  selectValue (step props st (LabelCloseClick Sample.C))
  = [Sample.A; Sample.A; Sample.B].
Proof.
  intros props st.
  assert (Hout : ~ In (key Sample.C)
                     (map key (selectValueForMultiplePanel st))).
  { cbn. intros [H|[H|[]]]; discriminate. }
  exact (proj1 (@label_close_missing_key props st Sample.C eq_refl Hout)).
Defined.

(** X3. Opening the popup through the trigger never touches the
    selection or the pending selection, shows the popup and calls
    [onVisibleChange(true)] alone.  The highlight becomes the key of the
    first selected entry in single mode with a selection; otherwise,
    under [defaultActiveFirstOption], the key of the first option that is
    not disabled (absent when there is none); otherwise it stays. *)
Theorem open_sets_highlight (props : SelectProps) (st : SelectState) :
  let st' := step props st (TriggerVisibleChange true) in
  selectValue st' = selectValue st /\
  selectValueForMultiplePanel st' = selectValueForMultiplePanel st /\
  searchValue st' = searchValue st /\
  popupVisible st' = true /\
  notifications props st (TriggerVisibleChange true) = [onVisibleChange true] /\
  (forall x rest, mode props = single -> selectValue st = x :: rest ->
     activeKey st' = key x) /\
  (mode props = multiple \/ selectValue st = [] ->
     (defaultActiveFirstOption props = false -> activeKey st' = activeKey st) /\
     (defaultActiveFirstOption props = true ->
        match enabledOptions (propChildren props) with
        | first :: _ => activeKey st' = key first
        | [] => activeKey st' = Js.undefined
        end)).
Proof.
  cbv zeta.
  assert (E : step props st (TriggerVisibleChange true)
              = merge st
                  (mkPartialState None None None (Some true)
                     (match mode props, selectValue st with
                      | single, x :: _ => Some (key x)
                      | _, _ =>
                          if defaultActiveFirstOption props
                          then Some (key (hd emptyObject (liveOptions props)))
                          else None
                      end))) by reflexivity.
  rewrite E, <- liveOptions_spec.
  split; [reflexivity|]. split; [reflexivity|]. split; [reflexivity|].
  split; [reflexivity|]. split; [reflexivity|]. split.
  - intros x rest Hm Hs. rewrite Hm, Hs. reflexivity.
  - intros Hc.
    assert (Ea : activeKey
                   (merge st
                      (mkPartialState None None None (Some true)
                         (match mode props, selectValue st with
                          | single, x :: _ => Some (key x)
                          | _, _ =>
                              if defaultActiveFirstOption props
                              then Some (key (hd emptyObject
                                                (liveOptions props)))
                              else None
                          end)))
                 = orElse (if defaultActiveFirstOption props
                           then Some (key (hd emptyObject (liveOptions props)))
                           else None) (activeKey st)).
    { destruct Hc as [Hm|Hs]; [rewrite Hm|rewrite Hs]; cbn;
        [|destruct (mode props)]; reflexivity. }
    rewrite Ea. split; intros Hd; rewrite Hd; unfold orElse; [reflexivity|].
    destruct (liveOptions props); reflexivity.
Qed.

Lemma open_sets_highlight_witness :
  let props := Sample.props single false (FilterBoolean true) false in
  let st := Sample.state [Sample.B] [Sample.B] false Js.undefined in
  activeKey (step props st (TriggerVisibleChange true)) = Js.str "b".
Proof.
  intros props st.
  destruct (open_sets_highlight props st) as (_ & _ & _ & _ & _ & H & _).
  exact (H Sample.B [] eq_refl eq_refl).
Defined.

(** X4. Every closing transition (cancel, confirm, clear, a close
    reported by the trigger, Escape when enabled, and any option click in
    single mode) hides the popup, drops the highlight, keeps the search
    text, and calls [onVisibleChange(false)] before any other callback. *)
Theorem closing_resets_highlight_keeps_search (props : SelectProps)
    (st : SelectState) (e : Event) :
  closes props e ->
  let st' := step props st e in
  popupVisible st' = false /\
  activeKey st' = Js.undefined /\
  searchValue st' = searchValue st /\
  exists rest, notifications props st e = onVisibleChange false :: rest.
Proof.
  intros Hc. cbv zeta.
  destruct e as [obj|obj| | |v| | |text| |k]; cbn in Hc; try contradiction.
  - unfold step, notifications, handle, onOptionClick. rewrite Hc.
    destruct (0 <=? findIndex (keyIs (key obj)) (selectValue st))%Z;
      [|destruct (labelInValue props)]; cbn; eauto 6.
  - unfold step, notifications, handle, onOptionClick. rewrite Hc.
    destruct (0 <=? findIndex (keyIs (key obj)) (selectValue st))%Z;
      [|destruct (labelInValue props)]; cbn; eauto 6.
  - destruct (confirm_step props st) as [E N]. rewrite E, N. cbn. eauto 6.
  - destruct (cancel_step props st) as [E N]. rewrite E, N. cbn. eauto 6.
  - destruct v; [contradiction|].
    unfold step, notifications, handle, visibleChangeFromTrigger.
    destruct (mode props); cbn; eauto 6.
  - cbn. eauto 6.
  - destruct k; try contradiction.
    unfold step, notifications, handle, handleKeyboardEvent.
    cbn [keyCodeIs andb]. rewrite Hc. cbn. eauto 6.
Qed.

Lemma closing_resets_highlight_keeps_search_witness :
  let props := Sample.props multiple false (FilterBoolean true) false in
  let st := {| searchValue := "Ban"; selectValue := [Sample.A];
               selectValueForMultiplePanel := []; popupVisible := true;
               activeKey := Js.str "b" |} in
  activeKey (step props st (KeyDown ESC)) = Js.undefined /\
  searchValue (step props st (KeyDown ESC)) = "Ban"%string.
Proof.
  intros props st.
  destruct (@closing_resets_highlight_keeps_search props st (KeyDown ESC)
              eq_refl) as (_ & H1 & H2 & _).
  split; [exact H1 | exact H2].
Defined.

Lemma enter_outcome (props : SelectProps) (st : SelectState) :
  let l := keyboardOptions props st in
  let i := findIndex (keyIs (activeKey st)) l in
  let o := item l i in
  let st' := step props st (KeyDown ENTER) in
  let fired := notifications props st (KeyDown ENTER) in
  (0 <= i)%Z ->
  In o l /\ key o = activeKey st /\
  (~ In (activeKey st) (map key (selectValue st)) ->
     match mode props with
     | single =>
         selectValue st' = [o] /\
         fired = [ onVisibleChange false;
                   onChange (if labelInValue props then ObjectArg o
                             else ValueArg (key o)) ]
     | multiple =>
         selectValue st' = selectValue st ++ [o] /\ fired = []
     end) /\
  (In (activeKey st) (map key (selectValue st)) -> st' = st /\ fired = []).
Proof.
  cbv zeta. intros Hi.
  pose proof (findIndex_bounds (keyIs (activeKey st))
                (keyboardOptions props st)) as B.
  destruct (findIndex_item (keyIs (activeKey st)) (keyboardOptions props st)
              emptyObject Hi) as [Hin Hkey].
  apply keyIs_true in Hkey.
  split; [exact Hin|split; [exact Hkey|]].
  unfold step, notifications, handle, handleKeyboardEvent.
  cbn [keyCodeIs andb orb].
  destruct (Z.of_nat (List.length (keyboardOptions props st)) =? 0)%Z eqn:E0;
    [apply Z.eqb_eq in E0; lia|].
  destruct (findIndex (keyIs (activeKey st)) (keyboardOptions props st)
            =? -1)%Z eqn:E1; [apply Z.eqb_eq in E1; lia|].
  cbn [negb].
  pose proof (isSome_find_key (activeKey st) (selectValue st)) as Hsel.
  destruct (isSome (find (keyIs (activeKey st)) (selectValue st))); cbn [negb].
  - split.
    + intros H. exfalso. apply H. now apply Hsel.
    + intros _. cbn. auto.
  - split.
    + intros _. destruct (mode props); cbn.
      * unfold enterCallback. destruct (labelInValue props); cbn; auto.
      * auto.
    + intros H. apply Hsel in H. discriminate.
Qed.

Lemma keydown_selection (props : SelectProps) (st : SelectState)
    (k : KeyCode) :
  let st' := step props st (KeyDown k) in
  let fired := notifications props st (KeyDown k) in
  selectValueForMultiplePanel st' = selectValueForMultiplePanel st /\
  (selectValue st' = selectValue st /\
   (fired = [] \/ fired = [onVisibleChange false])
   \/
   exists o, k = ENTER /\ In o (keyboardOptions props st) /\
             key o = activeKey st /\
             ~ In (activeKey st) (map key (selectValue st)) /\
             (mode props = single /\ selectValue st' = [o] /\
              fired = [ onVisibleChange false;
                        onChange (if labelInValue props then ObjectArg o
                                  else ValueArg (key o)) ]
              \/
              mode props = multiple /\ selectValue st' = selectValue st ++ [o]
              /\ fired = [])).
Proof.
  cbv zeta.
  assert (Hd : keyboardOptions props st = []
               \/ keyboardOptions props st <> []).
  { destruct (keyboardOptions props st); [now left|right; discriminate]. }
  destruct k.
  - unfold step, notifications, handle, handleKeyboardEvent.
    cbn [keyCodeIs andb orb]. destruct (esc props); cbn; auto.
  - destruct Hd as [He|Hne].
    { destruct (empty_list_step props st (or_introl eq_refl) He) as [E N].
      rewrite E, N. auto. }
    pose proof (findIndex_bounds (keyIs (activeKey st))
                  (keyboardOptions props st)) as B.
    destruct (Z.eq_dec (findIndex (keyIs (activeKey st))
                          (keyboardOptions props st)) (-1)) as [Ei|Ei].
    { unfold step, notifications, handle, handleKeyboardEvent.
      cbn [keyCodeIs andb orb]. rewrite Ei.
      destruct (Z.of_nat (List.length (keyboardOptions props st)) =? 0)%Z;
        cbn; auto. }
    destruct (in_dec Js.value_eq_dec (activeKey st)
                (map key (selectValue st))) as [Hin|Hout].
    { assert (Hi : (0 <= findIndex (keyIs (activeKey st))
                           (keyboardOptions props st))%Z) by lia.
      destruct (enter_outcome props st Hi)
        as (_ & _ & _ & Hsame).
      destruct (Hsame Hin) as [E N]. rewrite E, N. auto. }
    assert (Hi : (0 <= findIndex (keyIs (activeKey st))
                         (keyboardOptions props st))%Z) by lia.
    destruct (enter_outcome props st Hi)
      as (Ho & Hk & Hnew & _).
    specialize (Hnew Hout). split.
    + unfold step, handle, handleKeyboardEvent.
      cbn [keyCodeIs andb orb].
      destruct (Z.of_nat (List.length (keyboardOptions props st)) =? 0)%Z;
        [reflexivity|].
      destruct (negb _); [|reflexivity].
      destruct (negb _); [|reflexivity].
      destruct (mode props); reflexivity.
    + right. eexists. split; [reflexivity|]. split; [exact Ho|].
      split; [exact Hk|]. split; [exact Hout|].
      destruct (mode props); [left|right]; repeat split; tauto.
  - destruct Hd as [He|Hne].
    + destruct (empty_list_step props st
                  (or_intror (or_introl eq_refl)) He) as [E N].
      rewrite E, N. auto.
    + destruct (arrow_step props st (or_introl eq_refl) Hne) as [E N].
      rewrite E, N. cbn. auto.
  - destruct Hd as [He|Hne].
    + destruct (empty_list_step props st
                  (or_intror (or_intror eq_refl)) He) as [E N].
      rewrite E, N. auto.
    + destruct (arrow_step props st (or_intror eq_refl) Hne) as [E N].
      rewrite E, N. cbn. auto.
  - cbn. auto.
Qed.

(** ** What multiple mode keeps from the host, and selection invariants *)

(** X5. In multiple mode only the confirm button and a tag removal (and
    the clear row, which single mode alone renders) call [onChange] or
    write the pending selection: option clicks, select-all, cancel,
    opening and closing, search edits and every key leave the pending
    selection as it is and never call [onChange]. *)
Theorem uncommitted_edits_stay_private (props : SelectProps)
    (st : SelectState) (e : Event) :
  mode props = multiple ->
  reportsInMultiple e = false ->
  selectValueForMultiplePanel (step props st e)
    = selectValueForMultiplePanel st /\
  forall arg, ~ In (onChange arg) (notifications props st e).
Proof.
  intros Hm Hr.
  destruct e as [obj|obj| | |v| | |text| |k]; try discriminate.
  - destruct (multiple_click_step props st obj Hm) as [E N].
    rewrite E, N. split; [reflexivity|]. intros arg [H|[]].
    destruct (0 <=? findIndex (keyIs (key obj)) (selectValue st))%Z;
      discriminate.
  - destruct (cancel_step props st) as [E N]. rewrite E, N.
    split; [reflexivity|]. intros arg [H|[]]. discriminate.
  - unfold step, notifications, handle, visibleChangeFromTrigger.
    rewrite Hm. destruct v; cbn; (split; [reflexivity|]);
      intros arg [H|[]]; discriminate.
  - destruct (select_all_step props st) as [E N]. rewrite E, N.
    split; [reflexivity|]. intros arg [].
  - cbn. split; [reflexivity|]. intros arg [H|[]]. discriminate.
  - cbn. split; [reflexivity|]. intros arg [H|[]]. discriminate.
  - destruct (keydown_selection props st k) as [Hp Hs].
    split; [exact Hp|]. intros arg Hin.
    destruct Hs as [[_ [N|N]]|(o & _ & _ & _ & _ & [(Hs & _)|(_ & _ & N)])].
    + rewrite N in Hin. destruct Hin.
    + rewrite N in Hin. destruct Hin as [H|[]]. discriminate.
    + congruence.
    + rewrite N in Hin. destruct Hin.
Qed.

Lemma uncommitted_edits_stay_private_witness :
  let props := Sample.props multiple false (FilterBoolean true) false in
  let st := Sample.state [Sample.A] [] true (Js.str "b") in
  selectValueForMultiplePanel (step props st (KeyDown ENTER)) = [] /\
  selectValueForMultiplePanel (step props st SelectAllClick) = [].
Proof.
  intros props st. split.
  - exact (proj1 (@uncommitted_edits_stay_private props st (KeyDown ENTER)
                    eq_refl eq_refl)).
  - exact (proj1 (@uncommitted_edits_stay_private props st SelectAllClick
                    eq_refl eq_refl)).
Defined.

Lemma option_clicks_keep_pending (props : SelectProps) (es : list Event) :
  mode props = multiple ->
  Forall isOptionClick es ->
  forall st,
    selectValueForMultiplePanel (run props st es)
      = selectValueForMultiplePanel st /\
    popupVisible (run props st es) = popupVisible st.
Proof.
  intros Hm Hes. induction Hes as [|e es He _ IH]; intros st; [now cbn|].
  destruct e as [obj| | | | | | | | | ]; try contradiction.
  unfold run in *. cbn [fold_left].
  destruct (IH (step props st (OptionClick obj))) as [H1 H2].
  rewrite H1, H2.
  destruct (multiple_click_step props st obj Hm) as [E _]. now rewrite E.
Qed.

(** X6. In multiple mode, after any number of option clicks the pending
    selection and the popup are as before; cancel then gives back the
    pending selection as the selection, whatever was toggled, and confirm
    commits exactly the selection the clicks built. *)
Theorem toggles_then_cancel_or_confirm (props : SelectProps)
    (st : SelectState) (es : list Event) :
  mode props = multiple ->
  Forall isOptionClick es ->
  let edited := run props st es in
  selectValueForMultiplePanel edited = selectValueForMultiplePanel st /\
  popupVisible edited = popupVisible st /\
  selectValue (step props edited CancelClick)
    = selectValueForMultiplePanel st /\
  selectValueForMultiplePanel (step props edited CancelClick)
    = selectValueForMultiplePanel st /\
  selectValueForMultiplePanel (step props edited ConfirmClick)
    = selectValue edited /\
  selectValue (step props edited ConfirmClick) = selectValue edited.
Proof.
  intros Hm Hes. cbv zeta.
  destruct (@option_clicks_keep_pending props es Hm Hes st) as [H1 H2].
  rewrite (proj1 (cancel_step props _)), (proj1 (confirm_step props _)).
  cbn [selectValue selectValueForMultiplePanel].
  repeat split; assumption || reflexivity.
Qed.

Lemma toggles_then_cancel_or_confirm_witness :
  let props := Sample.props multiple false (FilterBoolean true) false in
  let st := Sample.state [Sample.A] [Sample.A] true Js.undefined in
  let es := [OptionClick Sample.B; OptionClick Sample.A; OptionClick Sample.C] in
  selectValue (step props (run props st es) CancelClick) = [Sample.A] /\
  selectValueForMultiplePanel (step props (run props st es) ConfirmClick)
    = selectValue (run props st es).
Proof.
  intros props st es.
  assert (Hes : Forall isOptionClick es) by (repeat constructor).
  destruct (@toggles_then_cancel_or_confirm props st es eq_refl Hes)
    as (_ & _ & H1 & _ & H2 & _).
  split; [exact H1 | exact H2].
Defined.

Lemma toggled_distinct (X : SelectValue) (l : list SelectValue) :
  NoDup (map key l) -> NoDup (map key (toggled X l)).
Proof.
  intros Hn.
  destruct (in_dec Js.value_eq_dec (key X) (map key l)) as [Hin|Hout].
  - destruct (toggled_present X l Hin) as (l1 & x & l2 & El & _ & _ & Et).
    rewrite Et. rewrite El, map_app in Hn. cbn in Hn.
    apply NoDup_remove_1 in Hn. now rewrite map_app.
  - rewrite (toggled_absent X l Hout), map_app. cbn.
    apply NoDup_app; auto.
    + constructor; [intros []|constructor].
    + intros k Hk [<-|[]]. contradiction.
Qed.

(** X7. Distinct keys are kept.  When the options that are not disabled
    have distinct keys, every event the rendered component offers takes
    a state whose selection and pending selection have no duplicate key
    to another such state. *)
Theorem distinct_keys_preserved (props : SelectProps) (st : SelectState)
    (e : Event) :
  NoDup (map key (enabledOptions (propChildren props))) ->
  offered props st e ->
  distinctKeys st ->
  distinctKeys (step props st e).
Proof.
  intros Hcat Hoff [Hs Hp]. unfold distinctKeys.
  assert (Hone : forall o : SelectValue, NoDup (map key [o])).
  { intros o. cbn. constructor; [intros []|constructor]. }
  destruct e as [obj|obj| | |v| | |text| |k]; cbn in Hoff.
  - destruct (mode props) eqn:Hm.
    + unfold step, handle, onOptionClick. rewrite Hm.
      destruct (0 <=? findIndex (keyIs (key obj)) (selectValue st))%Z;
        [|destruct (labelInValue props)]; cbn [fst runHandler];
        split; first [apply Hone | exact Hp].
    + destruct (multiple_click_step props st obj Hm) as [E _]. rewrite E.
      cbn. split; [now apply toggled_distinct|exact Hp].
  - destruct Hoff as [Hm Hin].
    destruct (label_close_step props st obj Hm) as [E _]. rewrite E. cbn.
    assert (Hk : In (key obj) (map key (selectValueForMultiplePanel st)))
      by (now apply in_map).
    apply isSelected_iff, Z.leb_le in Hk.
    destruct (remove_at_found (keyIs (key obj)) _ Hk)
      as (l1 & x & l2 & El & _ & _ & Er).
    rewrite Er. rewrite El, map_app in Hp. cbn in Hp.
    apply NoDup_remove_1 in Hp. rewrite map_app. auto.
  - rewrite (proj1 (confirm_step props st)). cbn. auto.
  - rewrite (proj1 (cancel_step props st)). cbn. auto.
  - unfold step, handle, visibleChangeFromTrigger.
    destruct v, (mode props); cbn; auto.
  - rewrite (proj1 (select_all_step props st)).
    cbn [selectValue selectValueForMultiplePanel]. split; [|exact Hp].
    destruct (isSelectAll props false st); [constructor|].
    now rewrite liveOptions_spec.
  - cbn. split; [constructor|exact Hp].
  - cbn. auto.
  - cbn. auto.
  - destruct (keydown_selection props st k) as [Ep Hsel]. rewrite Ep.
    split; [|exact Hp].
    destruct Hsel as [[-> _]|(o & _ & _ & Hk & Hout & [(_ & -> & _)|(_ & -> & _)])];
      auto.
    rewrite map_app. cbn. apply NoDup_app; auto.
    + constructor; [intros []|constructor].
    + rewrite Hk. intros k' Hk' [<-|[]]. contradiction.
Qed.

Lemma distinct_keys_preserved_witness :
  let props := Sample.props multiple false (FilterBoolean true) false in
  let st := Sample.state [Sample.A] [Sample.B] true Js.undefined in
  distinctKeys (step props st SelectAllClick).
Proof.
  intros props st.
  assert (Hcat : NoDup (map key (enabledOptions (propChildren props)))).
  { cbn. repeat constructor; cbn; intuition discriminate. }
  assert (Hst : distinctKeys st).
  { split; cbn; repeat constructor; cbn; tauto. }
  exact (@distinct_keys_preserved props st SelectAllClick Hcat eq_refl Hst).
Defined.

(** X8. In single mode every event the rendered component offers keeps
    a selection of at most one entry. *)
Theorem single_mode_at_most_one (props : SelectProps) (st : SelectState)
    (e : Event) :
  mode props = single ->
  offered props st e ->
  (List.length (selectValue st) <= 1)%nat ->
  (List.length (selectValue (step props st e)) <= 1)%nat.
Proof.
  intros Hm Hoff Hlen.
  destruct e as [obj|obj| | |v| | |text| |k]; cbn in Hoff.
  - unfold step, handle, onOptionClick. rewrite Hm.
    destruct (0 <=? findIndex (keyIs (key obj)) (selectValue st))%Z;
      [|destruct (labelInValue props)]; cbn; lia.
  - destruct Hoff as [Hm' _]. congruence.
  - congruence.
  - congruence.
  - unfold step, handle, visibleChangeFromTrigger. rewrite Hm.
    destruct v; cbn; exact Hlen.
  - congruence.
  - cbn. lia.
  - cbn. exact Hlen.
  - cbn. exact Hlen.
  - destruct (keydown_selection props st k) as [_ Hsel].
    destruct Hsel as [[-> _]|(o & _ & _ & _ & _ & [(_ & -> & _)|(Hm' & _)])];
      [exact Hlen|cbn; lia|congruence].
Qed.

Lemma single_mode_at_most_one_witness :
  let props := Sample.props single false (FilterBoolean true) false in
  let st := Sample.state [Sample.A] [Sample.A] true (Js.str "b") in
  (List.length (selectValue (step props st (KeyDown ENTER))) <= 1)%nat.
Proof.
  intros props st.
  assert (Hlen : (List.length (selectValue st) <= 1)%nat) by (cbn; lia).
  exact (@single_mode_at_most_one props st (KeyDown ENTER) eq_refl I Hlen).
Defined.

(** ** Filtering and flattening the children *)

Lemma getFilteredChild_idem (fo : FilterOption) (search : string) :
  forall child,
    flat_map (getFilteredChild fo search) (getFilteredChild fo search child)
    = getFilteredChild fo search child.
Proof.
  fix IH 1. intros [p|s cs|]; simpl.
  - destruct (filterFlag fo search p) eqn:E; simpl; [|reflexivity].
    now rewrite E.
  - assert (E : flat_map (getFilteredChild fo search)
                  (flat_map (getFilteredChild fo search) cs)
                = flat_map (getFilteredChild fo search) cs).
    { induction cs as [|c cs IHcs]; simpl; [reflexivity|].
      now rewrite flat_map_app, IH, IHcs. }
    now rewrite E.
  - reflexivity.
Qed.

Lemma getFilteredChild_groups (fo : FilterOption) (search : string) :
  forall child,
    list_sum (map groupCount (getFilteredChild fo search child))
    = groupCount child /\
    forallb marksSet (getFilteredChild fo search child) = true.
Proof.
  fix IH 1. intros [p|s cs|]; simpl.
  - destruct (filterFlag fo search p); simpl; auto.
  - assert (E : list_sum (map groupCount
                            (flat_map (getFilteredChild fo search) cs))
                = list_sum (map groupCount cs) /\
                forallb marksSet (flat_map (getFilteredChild fo search) cs)
                = true).
    { induction cs as [|c cs IHcs]; simpl; [auto|].
      destruct (IH c) as [H1 H2]. destruct IHcs as [H3 H4].
      rewrite map_app, list_sum_app, forallb_app, H1, H2, H3, H4. auto. }
    destruct E as [E1 E2]. rewrite E1, E2, Bool.eqb_reflx. simpl. auto.
  - auto.
Qed.

Lemma getFilteredChildren_options (fo : FilterOption) (search : string)
    (cs : list Child) :
  flat_map optionProps (flat_map (getFilteredChild fo search) cs)
  = filter (filterFlag fo search) (flat_map optionProps cs).
Proof.
  induction cs as [|c cs IH]; simpl; [reflexivity|].
  now rewrite flat_map_app, filter_app, getFilteredChild_options, IH.
Qed.

Lemma getFilteredChildren_idem (fo : FilterOption) (search : string)
    (cs : list Child) :
  flat_map (getFilteredChild fo search)
    (flat_map (getFilteredChild fo search) cs)
  = flat_map (getFilteredChild fo search) cs.
Proof.
  induction cs as [|c cs IH]; simpl; [reflexivity|].
  now rewrite flat_map_app, getFilteredChild_idem, IH.
Qed.

(** X9. Search filtering keeps, in source order and through the groups,
    exactly the options the filter accepts (all of them under
    [filterOption = true], none under [false] or a value that is neither
    a boolean nor a function), and filtering a filtered list again
    changes nothing. *)
Theorem filtering_keeps_matching_options (fo : FilterOption)
    (search : string) (cs : list Child) :
  let filtered := getFilteredChildren fo search cs [] in
  flat_map optionProps filtered
    = filter (filterFlag fo search) (flat_map optionProps cs) /\
  getFilteredChildren fo search filtered [] = filtered /\
  (fo = FilterBoolean true ->
     flat_map optionProps filtered = flat_map optionProps cs) /\
  (fo = FilterBoolean false \/ fo = FilterOtherType ->
     flat_map optionProps filtered = []).
Proof.
  cbv zeta. unfold getFilteredChildren. cbn [app].
  rewrite getFilteredChildren_options, getFilteredChildren_idem.
  split; [reflexivity|]. split; [reflexivity|]. split.
  - intros ->. induction (flat_map optionProps cs) as [|p l IH];
      simpl; [reflexivity|]. now rewrite IH.
  - intros Hf. induction (flat_map optionProps cs) as [|p l IH];
      simpl; [reflexivity|]. destruct Hf as [-> | ->]; simpl; apply IH;
      auto.
Qed.

Lemma filtering_keeps_matching_options_witness :
  flat_map optionProps
    (getFilteredChildren (FilterBoolean true) "x" Sample.catalog [])
  = flat_map optionProps Sample.catalog.
Proof.
  destruct (filtering_keeps_matching_options (FilterBoolean true) "x"
              Sample.catalog) as (_ & _ & H & _).
  exact (H eq_refl).
Defined.

(** X10. Search filtering never removes a group: the filtered list has
    as many groups as the children, nested ones included, each marked
    with [_isShow] telling whether any child of it is left; children that
    are neither options nor groups are dropped. *)
Theorem filtering_keeps_groups (fo : FilterOption) (search : string)
    (cs : list Child) :
  let filtered := getFilteredChildren fo search cs [] in
  list_sum (map groupCount filtered) = list_sum (map groupCount cs) /\
  forallb marksSet filtered = true /\
  ~ In OtherChild filtered.
Proof.
  cbv zeta. unfold getFilteredChildren. cbn [app].
  induction cs as [|c cs IH]; simpl; [auto|].
  destruct IH as (H1 & H2 & H3).
  destruct (getFilteredChild_groups fo search c) as [G1 G2].
  rewrite map_app, list_sum_app, forallb_app, G1, G2, H1, H2.
  repeat split; auto.
  intros Hin. apply in_app_or in Hin. destruct Hin as [Hin|Hin]; [|auto].
  destruct c as [p|s cs'|]; simpl in Hin.
  - destruct (filterFlag fo search p); simpl in Hin; [|contradiction].
    destruct Hin as [H|[]]. discriminate.
  - destruct Hin as [H|[]]. discriminate.
  - contradiction.
Qed.

Lemma getOptionFromChild_all :
  forall child,
    getOptionFromChild None child = map selectOption (optionProps child).
Proof.
  fix IH 1. intros [p|s cs|]; simpl; [reflexivity| |reflexivity].
  induction cs as [|c cs IHcs]; simpl; [reflexivity|].
  now rewrite map_app, IH, IHcs.
Qed.

(** X11. Option resolution flattens the children: the result is the
    accumulator followed by the options in source order, groups opened in
    place, restricted to those the filter accepts when one is given; a
    group alone resolves as its children, and resolving two runs of
    children is resolving the second with the result of the first as
    accumulator. *)
Theorem getOptionFromChildren_flattens (cs : list Child)
    (plainOptionList : list SelectValue) :
  (forall f,
     getOptionFromChildren cs plainOptionList (Some f)
     = plainOptionList
       ++ map selectOption (filter f (flat_map optionProps cs))) /\
  getOptionFromChildren cs plainOptionList None
    = plainOptionList ++ map selectOption (flat_map optionProps cs) /\
  (forall flt s,
     getOptionFromChildren [OptGroupElement s cs] plainOptionList flt
     = getOptionFromChildren cs plainOptionList flt) /\
  (forall flt cs',
     getOptionFromChildren (cs ++ cs') plainOptionList flt
     = getOptionFromChildren cs'
         (getOptionFromChildren cs plainOptionList flt) flt).
Proof.
  unfold getOptionFromChildren. split; [|split; [|split]].
  - intros f. f_equal.
    apply flat_map_map_filter, getOptionFromChild_filter.
  - f_equal. induction cs as [|c cs IH]; simpl; [reflexivity|].
    now rewrite map_app, getOptionFromChild_all, IH.
  - intros flt s. simpl. now rewrite app_nil_r.
  - intros flt cs'. now rewrite flat_map_app, app_assoc.
Qed.

(** X12. The two all-selected tests differ on a catalog without any
    enabled option: the one on the selection (behind the select-all row)
    holds, the one on the pending selection (behind the all-selected text)
    does not; with an enabled option the latter holds exactly when every
    enabled option has its key in the pending selection. *)
Theorem isSelectAll_on_pending (props : SelectProps) (st : SelectState) :
  let enabled := enabledOptions (propChildren props) in
  (enabled = [] ->
     isSelectAll props false st = true /\ isSelectAll props true st = false) /\
  (enabled <> [] ->
     (isSelectAll props true st = true <->
      forall o, In o enabled ->
                In (key o) (map key (selectValueForMultiplePanel st)))).
Proof.
  cbv zeta. rewrite <- liveOptions_spec. unfold isSelectAll, every. split.
  - intros ->. split; reflexivity.
  - intros Hne. destruct (liveOptions props) as [|o l] eqn:E;
      [congruence|]. cbn [isEmpty negb andb].
    rewrite forallb_forall.
    split; intros H x Hx; now apply isSome_find_key, H.
Qed.

Lemma isSelectAll_on_pending_witness :
  let props := Sample.props multiple false (FilterBoolean true) false in
  let st := Sample.state [] [Sample.B; Sample.A] true Js.undefined in
  isSelectAll props true st = true.
Proof.
  intros props st.
  destruct (isSelectAll_on_pending props st) as [_ H].
  assert (Hne : enabledOptions (propChildren props) <> [])
    by (cbn; discriminate).
  apply (H Hne). intros o Ho. cbn in Ho.
  destruct Ho as [<-|[<-|[]]]; cbn; auto.
Defined.

(** ** New props and confirm validation *)

Lemma isEqual_true (a b : list SelectValue) : isEqual a b = true <-> a = b.
Proof.
  unfold isEqual. destruct (list_eq_dec selectValue_eq_dec a b);
    split; congruence.
Qed.

Lemma merge_noChange (st : SelectState) : merge st noChange = st.
Proof. now destruct st. Qed.

(** X13. A render pass with the props of the previous pass derives no
    state change: whenever the constructor could normalize the value of
    these props, [getDerivedStateFromProps] leaves the state, uncommitted
    toggles included, as the handlers left it. *)
Theorem same_props_keep_state (props : SelectProps) (st st0 : SelectState) :
  construct props = Js.Ok st0 ->
  getDerivedStateFromProps props props = Js.Ok noChange /\
  receiveProps props props st = Js.Ok st.
Proof.
  intros Hc.
  assert (E : getDerivedStateFromProps props props = Js.Ok noChange).
  { unfold getDerivedStateFromProps, construct in *.
    rewrite Bool.eqb_reflx.
    destruct (propValue props) as [v|]; [|reflexivity].
    cbn [orElse].
    destruct (getValueFromProps v (labelInValue props) (propChildren props))
      as [l|]; [|discriminate].
    assert (Hl : isEqual l l = true) by now apply isEqual_true.
    now rewrite Hl. }
  split; [exact E|]. unfold receiveProps. rewrite E.
  now rewrite merge_noChange.
Qed.

Lemma same_props_keep_state_witness :
  let props := controlledProps multiple (Array [Prim (Js.str "a")]) in
  let st := Sample.state [Sample.A; Sample.B] [Sample.A] true Js.undefined in
  receiveProps props props st = Js.Ok st.
Proof.
  intros props st.
  exact (proj2 (@same_props_keep_state props st
                  (Sample.state [mkSelectValue (Js.str "a") (Js.str "Apple")
                                   Js.undefined]
                     [mkSelectValue (Js.str "a") (Js.str "Apple")
                        Js.undefined] false Js.undefined)
                  eq_refl)).
Defined.

(** X14. A controlled [value] whose normalization differs from that of
    the previous props replaces the selection, uncommitted toggles
    included, and in multiple mode the pending selection too; in single
    mode the pending selection stays.  When the two normalizations agree,
    or when no [value] prop is passed, both selections stay whatever else
    changed in the props.  Search text and highlight always stay. *)
Theorem controlled_value_replaces_selection (nextProps prevProps : SelectProps)
    (st : SelectState) :
  (forall v changed prev,
     propValue nextProps = Some v ->
     getValueFromProps v (labelInValue nextProps) (propChildren nextProps)
       = Js.Ok changed ->
     getValueFromProps
       (orElse (propValue prevProps) (Scalar (Prim Js.undefined)))
       (labelInValue prevProps) (propChildren prevProps) = Js.Ok prev ->
     exists st',
       receiveProps nextProps prevProps st = Js.Ok st' /\
       searchValue st' = searchValue st /\ activeKey st' = activeKey st /\
       (changed <> prev ->
          selectValue st' = changed /\
          selectValueForMultiplePanel st'
            = match mode nextProps with
              | multiple => changed
              | single => selectValueForMultiplePanel st
              end) /\
       (changed = prev ->
          selectValue st' = selectValue st /\
          selectValueForMultiplePanel st' = selectValueForMultiplePanel st)) /\
  (propValue nextProps = None ->
     exists st',
       receiveProps nextProps prevProps st = Js.Ok st' /\
       selectValue st' = selectValue st /\
       selectValueForMultiplePanel st' = selectValueForMultiplePanel st).
Proof.
  split.
  - intros v changed prev Hv Hc Hp.
    unfold receiveProps, getDerivedStateFromProps. rewrite Hv, Hc, Hp.
    pose proof (isEqual_true changed prev) as Heq.
    destruct (isEqual changed prev); cbn [negb].
    + eexists. split; [reflexivity|]. cbn.
      split; [reflexivity|]. split; [reflexivity|]. split.
      * intros Hne. exfalso. apply Hne. now apply Heq.
      * intros _. split; reflexivity.
    + eexists. split; [reflexivity|]. cbn.
      split; [reflexivity|]. split; [reflexivity|]. split.
      * intros _. split; [reflexivity|]. now destruct (mode nextProps).
      * intros He. apply Heq in He. discriminate.
  - intros Hv. unfold receiveProps, getDerivedStateFromProps. rewrite Hv.
    eexists. split; [reflexivity|]. cbn. auto.
Qed.

Lemma controlled_value_replaces_selection_witness :
  let nextProps := controlledProps single (Scalar (Prim (Js.str "b"))) in
  let prevProps := controlledProps single (Scalar (Prim (Js.str "a"))) in
  let st := Sample.state [Sample.A] [Sample.A] false Js.undefined in
  exists st',
    receiveProps nextProps prevProps st = Js.Ok st' /\
    selectValue st' = [Sample.B] /\
    selectValueForMultiplePanel st' = [Sample.A].
Proof.
  intros nextProps prevProps st.
  destruct (controlled_value_replaces_selection nextProps prevProps st)
    as [H _].
  destruct (H (Scalar (Prim (Js.str "b"))) [Sample.B] [Sample.A]
              eq_refl eq_refl eq_refl)
    as (st' & E & _ & _ & Hne & _).
  exists st'. split; [exact E|].
  assert (Hd : [Sample.B] <> [Sample.A])
    by (intros H'; vm_compute in H'; discriminate).
  exact (Hne Hd).
Defined.

(** X15. The confirm button under [maxCount] and [required].  In
    multiple mode, with as many selections as [maxCount] allows, a click
    on an option not yet selected disables confirm and a second click on
    it lifts the count error; with [required] and nothing selected
    confirm is disabled, and any option click lifts that. *)
Theorem confirm_disabled_by_count_and_required (props : SelectProps)
    (st : SelectState) (X : SelectValue) (m : Z) (required : bool) :
  mode props = multiple ->
  ~ In (key X) (map key (selectValue st)) ->
  let st1 := step props st (OptionClick X) in
  let st2 := step props st1 (OptionClick X) in
  (Z.of_nat (List.length (selectValue st)) = m ->
     maxCountError (Some m) st = false /\
     multipleConfirmDisabled props (Some m) required st1 = true /\
     maxCountError (Some m) st2 = false) /\
  (selectValue st = [] ->
     multipleConfirmDisabled props None true st = true /\
     multipleConfirmDisabled props None true st1 = false) /\
  maxCountError None st1 = false.
Proof.
  intros Hm Hout. cbv zeta.
  destruct (multiple_click_step props st X Hm) as [E1 _].
  destruct (multiple_click_step props (step props st (OptionClick X)) X Hm)
    as [E2 _].
  rewrite E2, E1. unfold multipleConfirmDisabled, maxCountError, requiredError.
  rewrite Hm. cbn [selectValue].
  rewrite (toggled_absent X _ Hout), (toggled_appended X _ Hout).
  split; [|split; [|reflexivity]].
  - intros <-. rewrite length_app. cbn [List.length].
    rewrite Z.ltb_irrefl.
    assert (H : (Z.of_nat (List.length (selectValue st))
                 <? Z.of_nat (List.length (selectValue st) + 1))%Z = true)
      by (apply Z.ltb_lt; lia).
    rewrite H. auto.
  - intros ->. cbn. auto.
Qed.

Lemma confirm_disabled_by_count_and_required_witness :
  let props := Sample.props multiple false (FilterBoolean true) false in
  let st := Sample.state [Sample.A] [] true Js.undefined in
  multipleConfirmDisabled props (Some 1%Z) false
    (step props st (OptionClick Sample.B)) = true.
Proof.
  intros props st.
  assert (Hout : ~ In (key Sample.B) (map key (selectValue st))).
  { cbn. intros [H|[]]. discriminate. }
  destruct (@confirm_disabled_by_count_and_required props st Sample.B 1%Z
              false eq_refl Hout) as (H & _).
  exact (proj1 (proj2 (H eq_refl))).
Defined.

(** ** The column filter of the table *)

Lemma indexOf_has (l : list Js.value) (k : Js.value) :
  (indexOf l k =? -1)%Z = false <-> In k l.
Proof.
  unfold indexOf.
  pose proof (findIndex_none (fun x => x === k) l) as N.
  pose proof (find_none_forall (fun x => x === k) l) as F.
  destruct (in_dec Js.value_eq_dec k l) as [Hin|Hout].
  - split; [auto|]. intros _. apply Z.eqb_neq. intros E.
    apply N in E. apply F with (x := k) in E; [|exact Hin].
    now rewrite strict_eq_refl in E.
  - split; [|contradiction]. intros H. apply Z.eqb_neq in H.
    exfalso. apply H, N, F. intros x Hx.
    destruct (x === k) eqn:E; [|reflexivity].
    apply strict_eq_true in E. congruence.
Qed.

Lemma findIndex_key_has (l : list Js.value) (k : Js.value) :
  (findIndex (fun x => x === k) l =? -1)%Z = negb (ColumnFiltrate.has l k).
Proof. unfold ColumnFiltrate.has, indexOf. now rewrite negb_involutive. Qed.

Lemma has_spec (l : list Js.value) (k : Js.value) :
  ColumnFiltrate.has l k = true <-> In k l.
Proof.
  unfold ColumnFiltrate.has. rewrite <- indexOf_has.
  destruct (indexOf l k =? -1)%Z; cbn; split; congruence.
Qed.

Lemma mapResult_total (A B : Type) (f : A -> Js.result B) (g : A -> B)
    (l : list A) :
  (forall x, In x l -> f x = Js.Ok (g x)) ->
  mapResult f l = Js.Ok (map g l).
Proof.
  induction l as [|x l IH]; intros H; cbn; [reflexivity|].
  rewrite (H x (or_introl eq_refl)), IH; [reflexivity|].
  intros y Hy. apply H. now right.
Qed.

Module ColumnFiltrateFacts.
Import ColumnFiltrate.

Lemma last_some_none (A : Type) (l : list A) :
  last (map Some l) None = None -> l = [].
Proof.
  induction l as [|x l IH]; [reflexivity|]. cbn.
  destruct l as [|y l]; [discriminate|]. intros H.
  specialize (IH H). discriminate.
Qed.

Lemma optionDisabled_locked (props : Props) (st : State) (column : Column) :
  In column (columns props) ->
  optionDisabled props st column = Js.Ok (locked props st column).
Proof.
  intros Hin. unfold optionDisabled, locked.
  destruct (isFixed column) eqn:Ef; [reflexivity|].
  destruct (Js.truthy (children column)); [reflexivity|].
  cbn [orb].
  destruct (existsb isFixed (columns props)); cbn [andb orb]; [|reflexivity].
  destruct (last (map Some (filter (fun c => negb (isFixed c))
                              (columns props))) None) as [lastColumn|] eqn:El.
  - destruct (getColumnKey column === keyOrDataIndex lastColumn);
      reflexivity.
  - apply last_some_none in El.
    assert (Hc : In column (filter (fun c => negb (isFixed c))
                              (columns props))).
    { apply filter_In. split; [exact Hin|]. now rewrite Ef. }
    rewrite El in Hc. destruct Hc.
Qed.

(** The options [getOptions] builds when nothing raises. *)
Lemma getOptions_locked (props : Props) (st : State) :
  getOptions props st =
  Js.Ok (filter (fun option => negb (has (defaultColumns props) (value option)))
           (map (fun column =>
                   mkCheckboxOption (title column) (getColumnKey column)
                     (locked props st column))
              (filter spanned (columns props)))).
Proof.
  unfold getOptions.
  rewrite (@mapResult_total _ _ _
             (fun column =>
                mkCheckboxOption (title column) (getColumnKey column)
                  (locked props st column))).
  - f_equal. apply filter_ext. intros o. apply findIndex_key_has.
  - intros c Hc. apply filter_In in Hc.
    now rewrite (optionDisabled_locked props st c (proj1 Hc)).
Qed.

(** X16. [getOptions] never raises, although it reads [key] of the last
    column that is not fixed: that read happens only for a column that is
    not fixed itself, so such a column exists.  It yields one option per
    column whose [colSpan] is not [0] and whose key is not among the
    default columns, in column order, with the column title as label and
    the column key as value. *)
Theorem getOptions_never_raises (props : Props) (st : State) :
  exists options,
    getOptions props st = Js.Ok options /\
    map value options
    = filter (fun k => negb (has (defaultColumns props) k))
        (map getColumnKey (filter spanned (columns props))) /\
    forall o, In o options ->
      exists column, In column (columns props) /\ spanned column = true /\
                     label o = title column /\
                     value o = getColumnKey column /\
                     disabled o = locked props st column.
Proof.
  eexists. split; [apply getOptions_locked|]. split.
  - induction (filter spanned (columns props)) as [|c l IH]; cbn;
      [reflexivity|].
    destruct (has (defaultColumns props) (getColumnKey c)); cbn;
      now rewrite IH.
  - intros o Ho. apply filter_In in Ho. destruct Ho as [Ho _].
    apply in_map_iff in Ho. destruct Ho as (c & <- & Hc).
    apply filter_In in Hc. exists c. cbn. tauto.
Qed.

(** X17. The last visible column is locked.  When exactly one column
    that is not fixed has its key checked, every option whose key is
    checked is disabled, that column's included; and the options of fixed
    columns and of columns with children are always disabled. *)
Theorem last_checked_column_is_locked (props : Props) (st : State)
    (options : list CheckboxOption) :
  getOptions props st = Js.Ok options ->
  (List.length
     (filter (fun c => has (checkedOption st) (getColumnKey c))
        (filter (fun c => negb (isFixed c)) (columns props))) = 1%nat ->
   forall o, In o options -> In (value o) (checkedOption st) ->
             disabled o = true) /\
  (forall column, In column (columns props) -> spanned column = true ->
     ~ In (getColumnKey column) (defaultColumns props) ->
     isFixed column = true \/ Js.truthy (children column) = true ->
     In (mkCheckboxOption (title column) (getColumnKey column) true) options).
Proof.
  rewrite getOptions_locked. intros E. inversion E; subst; clear E. split.
  - intros Hone o Ho Hchecked. apply filter_In in Ho. destruct Ho as [Ho _].
    apply in_map_iff in Ho. destruct Ho as (c & <- & Hc). cbn in *.
    unfold locked. apply has_spec in Hchecked. unfold has in *.
    rewrite Hchecked, Hone. cbn. now rewrite !orb_true_r.
  - intros c Hc Hs Hd Hlock. apply filter_In. split.
    + apply in_map_iff. exists c. split.
      * f_equal. unfold locked.
        destruct Hlock as [-> | ->]; [reflexivity|].
        now rewrite orb_true_r.
      * apply filter_In. auto.
    + cbn. destruct (has (defaultColumns props) (getColumnKey c)) eqn:E;
        [|reflexivity]. apply has_spec in E. contradiction.
Qed.

Lemma last_checked_column_is_locked_witness :
  let props := mkProps [ plainColumn (Js.str "name") (Js.str "Name");
                         plainColumn (Js.str "age") (Js.str "Age") ] [] [] in
  let st := mkState true [Js.str "age"] [Js.str "age"; Js.str "name"] in
  getOptions props st
    = Js.Ok [ mkCheckboxOption (Js.str "Name") (Js.str "name") false;
              mkCheckboxOption (Js.str "Age") (Js.str "age") true ] /\
  disabled (mkCheckboxOption (Js.str "Age") (Js.str "age") true) = true.
Proof.
  intros props st. split; [reflexivity|].
  apply (proj1 (@last_checked_column_is_locked props st _ eq_refl) eq_refl).
  - right. now left.
  - now left.
Defined.

Lemma hiddenKeys_total (props : Props) (st : State) :
  exists hidden, hiddenKeys props st = Js.Ok hidden.
Proof.
  unfold hiddenKeys. rewrite getOptions_locked. eexists. reflexivity.
Qed.

(** X18. The modal never raises and keeps edits apart from the
    confirmed choice: after any run of checkbox changes the confirmed
    keys and the visibility are as before and the host was not called;
    cancel then restores the confirmed keys as the checked ones, and OK
    commits the checked keys and calls the host's [onChange] exactly
    once. *)
Theorem modal_edits_then_cancel_or_ok (props : Props) (st : State)
    (es : list Event) :
  Forall isCheckChange es ->
  exists edited,
    run props st es = Js.Ok (edited, []) /\
    checkedOptionConfirm edited = checkedOptionConfirm st /\
    visible edited = visible st /\
    handle props edited ModalCancel
      = Js.Ok (mkState false (checkedOptionConfirm st)
                 (checkedOptionConfirm st), []) /\
    exists hidden,
      handle props edited ModalOk
      = Js.Ok (mkState false (checkedOption edited) (checkedOption edited),
               [hidden]).
Proof.
  intros Hes. revert st.
  induction Hes as [|e es He _ IH]; intros st.
  - exists st. cbn [run handle]. repeat split.
    destruct (hiddenKeys_total props
                (mkState false (checkedOption st) (checkedOption st)))
      as [hidden Hh].
    exists hidden. now rewrite Hh.
  - destruct e as [| | |checked]; try contradiction.
    destruct (IH (mkState (visible st) checked (checkedOptionConfirm st)))
      as (edited & Hr & Hc & Hv & Hcancel & Hok).
    exists edited. cbn [run handle]. rewrite Hr. cbn in *.
    repeat split; assumption.
Qed.

Lemma modal_edits_then_cancel_or_ok_witness :
  let props := mkProps [ plainColumn (Js.str "name") (Js.str "Name");
                         plainColumn (Js.str "age") (Js.str "Age") ] [] [] in
  let es := [CheckChange [Js.str "age"]; CheckChange []] in
  exists edited,
    run props (construct props) es = Js.Ok (edited, []) /\
    handle props edited ModalCancel
      = Js.Ok (mkState false [Js.str "name"; Js.str "age"]
                 [Js.str "name"; Js.str "age"], []).
Proof.
  intros props es.
  assert (Hes : Forall isCheckChange es) by (repeat constructor).
  destruct (@modal_edits_then_cancel_or_ok props (construct props) es Hes)
    as (edited & Hr & _ & _ & Hc & _).
  exists edited. split; [exact Hr | exact Hc].
Defined.

Lemma colSpanOptionFrom_none (all : list Column) (rest : list Column) :
  (forall c, In c rest -> colSpan c = None) ->
  forall index, colSpanOptionFrom all index rest = [].
Proof.
  induction rest as [|c rest IH]; intros H index; [reflexivity|].
  cbn. rewrite (H c (or_introl eq_refl)). cbn. apply IH.
  intros c' Hc'. apply H. now right.
Qed.

Lemma filter_all (A : Type) (p : A -> bool) (l : list A) :
  (forall x, In x l -> p x = true) -> filter p l = l.
Proof.
  induction l as [|x l IH]; intros H; cbn; [reflexivity|].
  rewrite (H x (or_introl eq_refl)), IH; [reflexivity|].
  intros y Hy. apply H. now right.
Qed.

Lemma filter_map_swap (A B : Type) (f : A -> B) (p : B -> bool)
    (l : list A) :
  filter p (map f l) = map f (filter (fun x => p (f x)) l).
Proof.
  induction l as [|x l IH]; cbn; [reflexivity|].
  destruct (p (f x)); cbn; now rewrite IH.
Qed.

Lemma flat_map_singleton (A B : Type) (f : A -> B) (l : list A) :
  flat_map (fun x => [f x]) l = map f l.
Proof. induction l as [|x l IH]; cbn; [reflexivity|]. now rewrite IH. Qed.

Lemma initialOption_has (props : Props) (c : Column) :
  (forall c', In c' (columns props) -> colSpan c' = None) ->
  In c (columns props) ->
  has (initialOption props) (getColumnKey c)
  = negb (has (hideColumns props) (getColumnKey c)).
Proof.
  intros Hspan Hc. unfold initialOption.
  rewrite (filter_all spanned)
    by (intros c' Hc'; unfold spanned; now rewrite (Hspan c' Hc')).
  destruct (has (hideColumns props) (getColumnKey c)) eqn:Eh; cbn [negb].
  - match goal with |- ?h = false => destruct h eqn:E end; [|reflexivity].
    apply has_spec, in_map_iff in E. destruct E as (c' & Hk & Hc').
    apply filter_In in Hc'. destruct Hc' as [_ Hf].
    rewrite findIndex_key_has, Hk, Eh in Hf. discriminate.
  - apply has_spec, in_map_iff. exists c. split; [reflexivity|].
    apply filter_In. split; [exact Hc|].
    now rewrite findIndex_key_has, Eh.
Qed.

(** X19. With no merged headers and no default columns, OK hands the
    host the keys of the columns left unchecked, in column order; right
    after construction these are the column keys listed in
    [hideColumns]. *)
Theorem ok_reports_unchecked_keys (props : Props) (st : State) :
  (forall c, In c (columns props) -> colSpan c = None) ->
  defaultColumns props = [] ->
  handle props st ModalOk
    = Js.Ok (mkState false (checkedOption st) (checkedOption st),
             [ filter (fun k => negb (has (checkedOption st) k))
                 (map getColumnKey (columns props)) ]) /\
  handle props (construct props) ModalOk
    = Js.Ok (mkState false (initialOption props) (initialOption props),
             [ filter (has (hideColumns props))
                 (map getColumnKey (columns props)) ]).
Proof.
  intros Hspan Hdef.
  assert (Hok : forall checked,
            hiddenKeys props (mkState false checked checked)
            = Js.Ok (filter (fun k => negb (has checked k))
                       (map getColumnKey (columns props)))).
  { intros checked. unfold hiddenKeys. rewrite getOptions_locked, Hdef.
    f_equal. cbn [checkedOptionConfirm].
    rewrite (filter_all (fun option => negb (has [] (value option))))
      by reflexivity.
    rewrite (filter_all spanned)
      by (intros c Hc; unfold spanned; now rewrite (Hspan c Hc)).
    rewrite !filter_map_swap. cbn [value]. unfold flatten.
    rewrite flat_map_concat_map, !map_map.
    rewrite <- flat_map_concat_map.
    unfold expand, colSpanOption.
    rewrite colSpanOptionFrom_none by exact Hspan. cbn.
    rewrite (filter_ext _ (fun x => negb (has checked (getColumnKey x))))
      by (intros c; unfold has; now rewrite negb_involutive).
    apply flat_map_singleton. }
  split.
  - cbn [handle]. now rewrite Hok.
  - cbn [handle construct checkedOption]. rewrite Hok. do 3 f_equal.
    rewrite !filter_map_swap. f_equal. apply filter_ext_in.
    intros c Hc. rewrite (initialOption_has props c Hspan Hc).
    apply negb_involutive.
Qed.

Lemma ok_reports_unchecked_keys_witness :
  let props := mkProps [ plainColumn (Js.str "name") (Js.str "Name");
                         plainColumn (Js.str "age") (Js.str "Age") ]
                 [] [Js.str "age"] in
  handle props (construct props) ModalOk
  = Js.Ok (mkState false [Js.str "name"] [Js.str "name"], [[Js.str "age"]]).
Proof.
  intros props.
  assert (Hspan : forall c, In c (columns props) -> colSpan c = None).
  { intros c [<-|[<-|[]]]; reflexivity. }
  exact (proj2 (@ok_reports_unchecked_keys props (construct props)
                  Hspan eq_refl)).
Defined.

(** X20. [flatten] opens nested arrays in place: a flat array is
    unchanged, an array inside counts as its items wherever it stands,
    and flattening distributes over concatenation. *)
Theorem flatten_opens_nested (a b : list Nested) (l : list Js.value) :
  flatten (map Leaf l) = l /\
  flatten (a ++ b) = flatten a ++ flatten b /\
  flatten (a ++ Nest b :: nil) = flatten (a ++ b) /\
  flatten (Nest (map Leaf l) :: b) = l ++ flatten b.
Proof.
  unfold flatten.
  assert (Hl : flat_map flattenItem (map Leaf l) = l).
  { induction l as [|v l IH]; cbn; [reflexivity|]. now rewrite IH. }
  repeat split.
  - exact Hl.
  - apply flat_map_app.
  - rewrite !flat_map_app. cbn. now rewrite app_nil_r.
  - cbn. now rewrite Hl.
Qed.

(** X21. A column whose [colSpan] is not [0] is offered exactly once:
    among the options when its key is not a default column, among the
    always-checked defaults (all disabled) when it is. *)
Theorem options_and_defaults_split (props : Props) (st : State)
    (options : list CheckboxOption) (column : Column) :
  getOptions props st = Js.Ok options ->
  In column (columns props) ->
  spanned column = true ->
  (In (getColumnKey column) (map value options)
   <-> ~ In (getColumnKey column) (defaultColumns props)) /\
  (In (getColumnKey column) (map value (getDefaultOption props))
   <-> In (getColumnKey column) (defaultColumns props)) /\
  forall o, In o (getDefaultOption props) -> disabled o = true.
Proof.
  rewrite getOptions_locked. intros E Hc Hs. inversion E; subst; clear E.
  split; [|split].
  - rewrite filter_map_swap, map_map. cbn [value]. split.
    + intros H. apply in_map_iff in H. destruct H as (c & Hk & Hf).
      apply filter_In in Hf. destruct Hf as [_ Hf]. rewrite Hk in Hf.
      intros Hd. apply has_spec in Hd. rewrite Hd in Hf. discriminate.
    + intros Hd. apply in_map_iff. exists column. split; [reflexivity|].
      apply filter_In. split; [apply filter_In; auto|].
      destruct (has (defaultColumns props) (getColumnKey column)) eqn:E;
        [|reflexivity]. apply has_spec in E. contradiction.
  - unfold getDefaultOption. rewrite map_map. cbn [value]. split.
    + intros H. apply in_map_iff in H. destruct H as (c & Hk & Hf).
      apply filter_In in Hf. destruct Hf as [_ Hf].
      rewrite findIndex_key_has, negb_involutive, Hk in Hf.
      now apply has_spec.
    + intros Hd. apply in_map_iff. exists column. split; [reflexivity|].
      apply filter_In. split; [exact Hc|].
      rewrite findIndex_key_has, negb_involutive. now apply has_spec.
  - intros o Ho. unfold getDefaultOption in Ho. apply in_map_iff in Ho.
    destruct Ho as (c & <- & _). reflexivity.
Qed.

Lemma options_and_defaults_split_witness :
  let props := mkProps [ plainColumn (Js.str "name") (Js.str "Name");
                         plainColumn (Js.str "age") (Js.str "Age") ]
                 [Js.str "name"] [] in
  let st := construct props in
  In (Js.str "age")
    (map value [mkCheckboxOption (Js.str "Age") (Js.str "age") true])
  <-> ~ In (Js.str "age") (defaultColumns props).
Proof.
  intros props st.
  exact (proj1 (@options_and_defaults_split props st _
                  (plainColumn (Js.str "age") (Js.str "Age"))
                  eq_refl (or_intror (or_introl eq_refl)) eq_refl)).
Defined.
End ColumnFiltrateFacts.
